(** * The HTTP request layer of the dashboard front end

    A shallow embedding of [app/apis/config.ts] (the URL resolver
    [getApiUrl]) and [app/apis/request.ts] (the request dispatcher
    [request], its response classifier [handleResponse], the notifier
    [handleError] and the [download] helper), followed by the properties
    of the request/response normalisation contract.

    JavaScript strings are modelled as [string]; the literals of the source
    that are not ASCII are kept as their UTF-8 bytes, for which "is a
    prefix of" and "is a substring of" agree with the same relations on
    well-formed UTF-16 text. *)

From Stdlib Require Import String Ascii List ZArith Bool Lia PrimFloat.
Import ListNotations.
Open Scope string_scope.

(** ** Strings: the [String.prototype] methods the module calls *)

Module Str.

(** [s.startsWith(p)] *)
Fixpoint startsWith (s p : string) : bool :=
  match p, s with
  | EmptyString, _ => true
  | String _ _, EmptyString => false
  | String c p', String d s' => Ascii.eqb d c && startsWith s' p'
  end.

(** [s.includes(sub)] *)
Fixpoint includes (s sub : string) : bool :=
  startsWith s sub
  || match s with
     | EmptyString => false
     | String _ s' => includes s' sub
     end.

(** [s.endsWith(suf)] (used in statements only). *)
Fixpoint endsWith (s suf : string) : bool :=
  String.eqb s suf
  || match s with
     | EmptyString => false
     | String _ s' => endsWith s' suf
     end.

Definition is_slash (c : ascii) : bool := Ascii.eqb c "/"%char.

(** [s.replace(/\/$/, '')]: the pattern has no flag, so [$] matches at the
    end of the input only and at most one character is removed. *)
Fixpoint strip_trailing_slash (s : string) : string :=
  match s with
  | EmptyString => EmptyString
  | String c EmptyString => if is_slash c then EmptyString else s
  | String c s' => String c (strip_trailing_slash s')
  end.

(** A string is truthy when it is not empty. *)
Definition nonempty (s : string) : bool :=
  match s with EmptyString => false | String _ _ => true end.

(** Removal of every leading, respectively trailing, slash: what the
    specification's "any trailing separator stripped" and "exactly one
    separating slash" describe. Not used by the code. *)
Fixpoint lstrip_slashes (s : string) : string :=
  match s with
  | String c s' => if is_slash c then lstrip_slashes s' else s
  | EmptyString => EmptyString
  end.

Fixpoint rstrip_slashes (s : string) : string :=
  match s with
  | EmptyString => EmptyString
  | String c s' =>
      match rstrip_slashes s' with
      | EmptyString => if is_slash c then EmptyString else String c EmptyString
      | r => String c r
      end
  end.

End Str.

(** ** [config.ts]: configuration and URL resolver *)

Record ApiConfig := { baseURL : string; timeout : Z }.

Definition API_CONFIG : ApiConfig :=
  {| baseURL := "http://192.168.57.9:8000"; timeout := 30 * 1000 |}.

(** [getApiUrl(path)]. The source reads the module constant [API_CONFIG];
    here the configuration is an argument so that statements can range over
    base addresses, and the dispatcher passes [API_CONFIG]. *)
Definition getApiUrl (cfg : ApiConfig) (path : string) : string :=
  if Str.startsWith path "http://" || Str.startsWith path "https://" then path
  else
    let base := Str.strip_trailing_slash (baseURL cfg) in
    let url := if Str.startsWith path "/" then path else "/" ++ path in
    base ++ url.

(** The join the specification describes: the base without its trailing
    separators, one slash, the path without its leading slashes. *)
Definition spec_join (base path : string) : string :=
  Str.rstrip_slashes base ++ "/" ++ Str.lstrip_slashes path.

(** ** JavaScript values, responses and errors *)

(** A [Blob], by its MIME type ([blob.type]) and the text that
    [await blob.text()] yields. *)
Record Blob := { blob_type : string; blob_text : string }.

(** The values a response body or a JSON text can hold. Numbers are IEEE 754
    doubles; an object is the list of its own properties, the first binding
    of a name being the one that is read. *)
#[warnings="-register-all"]
Inductive JsValue : Type :=
| VUndefined
| VNull
| VBool (b : bool)
| VNum (x : float)
| VStr (s : string)
| VArr (items : list JsValue)
| VObj (props : list (string * JsValue))
| VBlob (b : Blob).

(** What the dispatcher reads of a [FetchResponse]: its status, the result of
    [headers.get('content-type')] ([None] for [null]) and the parsed body. *)
Record FetchResponse := {
  status : Z;
  content_type : option string;
  _data : JsValue
}.

Inductive ErrorName := EError | ETypeError | ESyntaxError | EFetchError.

(** A thrown error object: [error.message] and [error.response], which only
    a [FetchError] of the transport carries. *)
Record JsError := {
  err_name : ErrorName;
  message : string;
  response : option FetchResponse
}.

Inductive Outcome (A : Type) : Type :=
| Return (a : A)
| Throw (e : JsError).
Arguments Return {A} a.
Arguments Throw {A} e.

Module Js.

(** ToBoolean *)
Definition truthy (v : JsValue) : bool :=
  match v with
  | VUndefined | VNull => false
  | VBool b => b
  | VNum x => negb (PrimFloat.eqb x 0%float || negb (PrimFloat.eqb x x))
  | VStr s => Str.nonempty s
  | VArr _ | VObj _ | VBlob _ => true
  end.

(** [a || b] *)
Definition or (a b : JsValue) : JsValue := if truthy a then a else b.

(** [v && typeof v === 'object'] *)
Definition is_object (v : JsValue) : bool :=
  match v with
  | VArr _ | VObj _ | VBlob _ => true
  | _ => false
  end.

(** [v instanceof Blob] *)
Definition instanceof_Blob (v : JsValue) : bool :=
  match v with VBlob _ => true | _ => false end.

Fixpoint lookup (k : string) (props : list (string * JsValue)) : option JsValue :=
  match props with
  | [] => None
  | (k', v) :: rest => if String.eqb k k' then Some v else lookup k rest
  end.

(** [k in v], for an object [v] and a name [k] that the standard prototypes
    do not define (the module tests ['skipResponseInterceptor'] and
    ['success']): only a plain object can hold it. *)
Definition has (k : string) (v : JsValue) : bool :=
  match v with
  | VObj props => match lookup k props with Some _ => true | None => false end
  | _ => false
  end.

Definition TypeError (msg : string) : JsError :=
  {| err_name := ETypeError; message := msg; response := None |}.

(** [v.k], for a name [k] as above: a [TypeError] on [null] and
    [undefined], the own property of a plain object, [undefined]
    otherwise. *)
Definition get (v : JsValue) (k : string) : Outcome JsValue :=
  match v with
  | VUndefined =>
      Throw (TypeError ("Cannot read properties of undefined (reading '" ++ k ++ "')"))
  | VNull =>
      Throw (TypeError ("Cannot read properties of null (reading '" ++ k ++ "')"))
  | VObj props =>
      Return (match lookup k props with Some x => x | None => VUndefined end)
  | _ => Return VUndefined
  end.

(** [a === b] for a string or number literal [b]. *)
Definition strict_eq_str (a : JsValue) (s : string) : bool :=
  match a with VStr t => String.eqb t s | _ => false end.

Definition strict_eq_num (a : JsValue) (x : float) : bool :=
  match a with VNum y => PrimFloat.eqb y x | _ => false end.

End Js.

(** ** Effects

    The module acts on the notifier ([toast.error]), the console and the
    document; a run is a function from the trace of the effects so far to an
    outcome and the extended trace. *)

(** The anchor element that [download] builds. *)
Record Link := { href : nat; download_attr : string }.

Inductive Event : Type :=
| Toast (msg : JsValue) (duration : Z)
| ConsoleError (label : string) (e : JsError)
| CreateObjectURL (b : Blob) (u : nat)
| AppendChild (l : Link)
| Click (l : Link)
| RemoveChild (l : Link)
| RevokeObjectURL (u : nat).

Definition Trace := list Event.

Definition M (A : Type) : Type := Trace -> Outcome A * Trace.

Definition ret {A} (a : A) : M A := fun t => (Return a, t).

Definition throw {A} (e : JsError) : M A := fun t => (Throw e, t).

Definition bind {A B} (c : M A) (k : A -> M B) : M B :=
  fun t =>
    match c t with
    | (Return a, t') => k a t'
    | (Throw e, t') => (Throw e, t')
    end.

(** [try { c } catch (e) { h e }] *)
Definition try_catch {A} (c : M A) (h : JsError -> M A) : M A :=
  fun t =>
    match c t with
    | (Return a, t') => (Return a, t')
    | (Throw e, t') => h e t'
    end.

(** The outcome of a call that has no effect on the trace. *)
Definition lift {A} (o : Outcome A) : M A := fun t => (o, t).

Definition emit (e : Event) : M unit := fun t => (Return tt, (t ++ [e])%list).

Declare Scope js_scope.
Delimit Scope js_scope with js.
Notation "x <- c ;; k" := (bind c (fun x => k))
  (at level 61, c at next level, right associativity) : js_scope.
Notation "c ;;; k" := (bind c (fun _ => k))
  (at level 61, right associativity) : js_scope.
Open Scope js_scope.

(** The notifications, respectively the file saves (clicks on a download
    link), of a trace. *)
Fixpoint toasts (t : Trace) : list JsValue :=
  match t with
  | [] => []
  | Toast m _ :: t' => m :: toasts t'
  | _ :: t' => toasts t'
  end.

Fixpoint saves (t : Trace) : list Link :=
  match t with
  | [] => []
  | Click l :: t' => l :: saves t'
  | _ :: t' => saves t'
  end.

(** ** [request.ts]: the dispatcher *)

(** [StatusCodeMessage[status]] *)
Definition StatusCodeMessage (st : Z) : option string :=
  match st with
  | 200 => Some "服务器成功返回请求的数据"
  | 201 => Some "新建或修改数据成功。"
  | 202 => Some "一个请求已经进入后台排队（异步任务）"
  | 204 => Some "删除数据成功"
  | 400 => Some "请求错误(400)"
  | 401 => Some "未授权，请重新登录(401)"
  | 403 => Some "拒绝访问(403)"
  | 404 => Some "请求出错(404)"
  | 408 => Some "请求超时(408)"
  | 500 => Some "服务器错误(500)"
  | 501 => Some "服务未实现(501)"
  | 502 => Some "网络错误(502)"
  | 503 => Some "服务不可用(503)"
  | 504 => Some "网络超时(504)"
  | _ => None
  end%Z.

Definition MSG_SERVER_ERROR : string := "服务器端错误".
Definition MSG_REQUEST_FAILED : string := "请求失败".
Definition MSG_DOWNLOAD_FAILED : string := "下载失败".
Definition MSG_UNAUTHORIZED : string := "未授权，请重新登录".
Definition MSG_NO_RESPONSE : string :=
  "服务器暂时未响应，请刷新页面并重试。若无法解决，请联系管理员".
Definition MSG_NETWORK : string := "网络连接失败，请检查您的网络".
Definition MSG_DOWNLOAD_LOG : string := "文件下载失败:".

(** [handleError(msg)]: one [toast.error] of five seconds. *)
Definition handleError (msg : JsValue) : M unit :=
  emit (Toast (Js.or msg (VStr MSG_SERVER_ERROR)) 5000).

(** [getToken()] and [getTenantId()]: both return [null]. *)
Definition getToken : option string := None.
Definition getTenantId : option string := None.

Inductive Method := GET | POST | PUT | PATCH | DELETE.

Inductive ResponseType := RTjson | RTtext | RTblob | RTarrayBuffer | RTstream.

Definition Headers := list (string * string).

(** [RequestConfig]: the fields of [FetchOptions] that the module sets or
    reads, an absent field being [None]. *)
Record RequestConfig := {
  url : string;
  method : option Method;
  skipErrorHandler : option bool;
  skipResponseInterceptor : option bool;
  headers : option Headers;
  params : option (list (string * JsValue));
  body : option JsValue;
  responseType : option ResponseType
}.

(** The options object handed to [$fetch.raw]. *)
Record FetchOptions := {
  fo_method : Method;
  fo_headers : Headers;
  fo_params : option (list (string * JsValue));
  fo_body : option JsValue;
  fo_responseType : option ResponseType
}.

(** [{ ...o, [k]: v }] *)
Fixpoint set_header (k v : string) (o : Headers) : Headers :=
  match o with
  | [] => [(k, v)]
  | (k', v') :: rest =>
      if String.eqb k k' then (k, v) :: rest else (k', v') :: set_header k v rest
  end.

(** [{ ...o, ...h }] *)
Definition spread (o h : Headers) : Headers :=
  fold_left (fun acc kv => set_header (fst kv) (snd kv) acc) h o.

Definition from_option {A} (d : A) (o : option A) : A :=
  match o with Some a => a | None => d end.

(** [createHeaders(config)] *)
Definition createHeaders (config : RequestConfig) : Headers :=
  let hs := spread [("Content-Type", "application/json")]
                   (from_option [] (headers config)) in
  let hs := match getToken with
            | Some token =>
                if Str.nonempty token
                then set_header "Authorization" ("Bearer " ++ token) hs else hs
            | None => hs
            end in
  let hs := match getTenantId with
            | Some tenantId =>
                if Str.nonempty tenantId
                then set_header "X-Tenant-Id" tenantId hs else hs
            | None => hs
            end in
  hs.

(** [{ success: true, code: 200, msg: 'success', data }] *)
Definition success_envelope (data : JsValue) : JsValue :=
  VObj [("success", VBool true); ("code", VNum 200%float);
        ("msg", VStr "success"); ("data", data)].

(** [headers.get('content-type')?.includes('application/octet-stream')] *)
Definition is_octet_stream (ct : option string) : bool :=
  match ct with
  | Some s => Str.includes s "application/octet-stream"
  | None => false
  end.

Definition Error (msg : string) : JsError :=
  {| err_name := EError; message := msg; response := None |}.

(** [window.URL.createObjectURL(blob)]: a handle not used before. *)
Definition createObjectURL (b : Blob) : M nat :=
  fun t => (Return (List.length t), (t ++ [CreateObjectURL b (List.length t)])%list).

(** [{ method, headers, ...restConfig }], the options of the call: the rest
    of the configuration is spread last, so headers given by the caller
    replace the created ones. *)
Definition fetch_options (method_ : Method) (headers_ : Headers)
    (config : RequestConfig) : FetchOptions :=
  {| fo_method := method_;
     fo_headers := from_option headers_ (headers config);
     fo_params := params config;
     fo_body := body config;
     fo_responseType := responseType config |}.

(** The configuration that [download] passes to [request]. *)
Definition download_config (url_ : string)
    (params_ : option (list (string * JsValue))) : RequestConfig :=
  {| url := url_;
     method := Some GET;
     skipErrorHandler := None;
     skipResponseInterceptor := Some true;
     headers := None;
     params := params_;
     body := None;
     responseType := Some RTblob |}.

(** [filename || 'download'] *)
Definition download_name (filename : option string) : string :=
  match filename with
  | Some f => if Str.nonempty f then f else "download"
  | None => "download"
  end.

(** The call that [request] makes for a configuration: the resolved URL and
    the options. *)
Definition request_url (config : RequestConfig) : string :=
  getApiUrl API_CONFIG (url config).

Definition request_options (config : RequestConfig) : FetchOptions :=
  fetch_options (from_option GET (method config)) (createHeaders config) config.

(** The envelope shape: an object with the four fields
    [success], [code], [msg] and [data]. *)
Definition is_envelope (v : JsValue) : bool :=
  Js.has "success" v && Js.has "code" v && Js.has "msg" v && Js.has "data" v.

(** ** The verb helpers: their optional third argument

    [get] and [del] take an [Omit<RequestConfig, 'url' | 'method' | 'params'>],
    [post], [put] and [patch] an [Omit<RequestConfig, 'url' | 'method' | 'body'>];
    an argument that is not given is [None]. *)
Record QueryOverrides := {
  q_skipErrorHandler : option bool;
  q_skipResponseInterceptor : option bool;
  q_headers : option Headers;
  q_body : option JsValue;
  q_responseType : option ResponseType
}.


(** [{ url, method, params, ...config }] *)
Definition query_config (m : Method) (url_ : string)
    (params_ : option (list (string * JsValue)))
    (config : option QueryOverrides) : RequestConfig :=
  {| url := url_;
     method := Some m;
     skipErrorHandler := match config with Some c => q_skipErrorHandler c | None => None end;
     skipResponseInterceptor :=
       match config with Some c => q_skipResponseInterceptor c | None => None end;
     headers := match config with Some c => q_headers c | None => None end;
     params := params_;
     body := match config with Some c => q_body c | None => None end;
     responseType := match config with Some c => q_responseType c | None => None end |}.


(** The [catch] block of [request] (lines 188-208), as a function of the
    flag and of the error caught; [request] carries the same block inline. *)
Definition on_rejection (skipErrorHandler_ : bool) (error : JsError) : M JsValue :=
  (if negb skipErrorHandler_ then
     match response error with
     | Some r =>
         handleError
           (Js.or (match StatusCodeMessage (status r) with
                   | Some m => VStr m
                   | None => VUndefined
                   end) (VStr MSG_NO_RESPONSE))
     | None =>
         if Str.nonempty (message error) then
           if negb (Str.includes (message error) MSG_REQUEST_FAILED)
              && negb (Str.includes (message error) MSG_DOWNLOAD_FAILED)
           then handleError (Js.or (VStr (message error)) (VStr MSG_NETWORK))
           else ret tt
         else handleError (VStr MSG_NETWORK)
     end
   else ret tt) ;;;
  throw error.

(** ** Observations on headers and traces, used in statements *)

(** [o[k]] on a headers object. *)
Fixpoint get_header (k : string) (o : Headers) : option string :=
  match o with
  | [] => None
  | (k', v) :: rest => if String.eqb k k' then Some v else get_header k rest
  end.

(** A notification as the module issues them: five seconds, and a message
    that is not falsy. *)
Definition is_notification (e : Event) : bool :=
  match e with
  | Toast m d => Z.eqb d 5000 && Js.truthy m
  | _ => false
  end.

(** The object URLs that a trace creates, respectively revokes. *)
Fixpoint created (t : Trace) : list nat :=
  match t with
  | [] => []
  | CreateObjectURL _ u :: t' => u :: created t'
  | _ :: t' => created t'
  end.

Fixpoint revoked (t : Trace) : list nat :=
  match t with
  | [] => []
  | RevokeObjectURL u :: t' => u :: revoked t'
  | _ :: t' => revoked t'
  end.

(** ** Collaborators used in the examples

    A transport that answers every call with one response, or rejects every
    call with one error; a [JSON.parse] that knows the text of one failure
    body and rejects every other text; a string conversion that is never
    consulted by the examples, whose messages are strings. *)

Definition serve (r : FetchResponse) : string -> FetchOptions -> Outcome FetchResponse :=
  fun _ _ => Return r.

Definition reject (e : JsError) : string -> FetchOptions -> Outcome FetchResponse :=
  fun _ _ => Throw e.

Definition dq : string := String "034"%char EmptyString.

(** The text [{"success":false,"msg":"M"}]. *)
Definition failure_text : string :=
  "{" ++ dq ++ "success" ++ dq ++ ":false," ++ dq ++ "msg" ++ dq ++ ":"
      ++ dq ++ "M" ++ dq ++ "}".

Definition failure_body : JsValue :=
  VObj [("success", VBool false); ("msg", VStr "M")].

Definition parse_failure_text (text : string) : Outcome JsValue :=
  if String.eqb text failure_text then Return failure_body
  else Throw {| err_name := ESyntaxError;
                message := "Unexpected token";
                response := None |}.

Definition object_to_string (v : JsValue) : Outcome string :=
  Return "[object Object]".

Definition plain_config (u : string) : RequestConfig :=
  {| url := u; method := None; skipErrorHandler := None;
     skipResponseInterceptor := None; headers := None; params := None;
     body := None; responseType := None |}.

Definition json_response (v : JsValue) : FetchResponse :=
  {| status := 200; content_type := Some "application/json"; _data := v |}.

Definition success_body : JsValue :=
  VObj [("success", VBool true); ("data", VStr "X")].

Definition flagged_body : JsValue :=
  VObj [("skipResponseInterceptor", VBool true)].

Definition flagged_list_body : JsValue :=
  VObj [("skipResponseInterceptor", VBool true); ("items", VArr [])].

Definition json_blob : Blob :=
  {| blob_type := "application/json"; blob_text := failure_text |}.

Definition pdf_blob : Blob :=
  {| blob_type := "application/pdf"; blob_text := "%PDF-1.7" |}.

Definition octet_json_response : FetchResponse :=
  {| status := 200;
     content_type := Some "application/octet-stream";
     _data := success_body |}.

Definition no_content_response : FetchResponse :=
  {| status := 204; content_type := None; _data := VUndefined |}.

Definition blob_response (b : Blob) : FetchResponse :=
  {| status := 200; content_type := Some (blob_type b); _data := VBlob b |}.

Definition json_config (u : string) : RequestConfig :=
  {| url := u; method := None; skipErrorHandler := None;
     skipResponseInterceptor := None; headers := None; params := None;
     body := None; responseType := Some RTjson |}.

Definition quiet_config (u : string) : RequestConfig :=
  {| url := u; method := None; skipErrorHandler := Some true;
     skipResponseInterceptor := None; headers := None; params := None;
     body := None; responseType := None |}.

(** A rejection of the transport with a status, and one without a response. *)
Definition status_error (st : Z) : JsError :=
  {| err_name := EFetchError;
     message := "FetchError";
     response := Some {| status := st; content_type := None; _data := VUndefined |} |}.

Definition network_error : JsError :=
  {| err_name := EFetchError; message := "Failed to fetch"; response := None |}.

Definition marker_error : JsError :=
  {| err_name := EFetchError;
     message := "请求失败: timeout";
     response := None |}.




Definition malformed_blob : Blob :=
  {| blob_type := "application/json"; blob_text := "{" |}.



Section Dispatcher.

(** The platform and the transport, which the module calls and does not
    define: [JSON.parse], the string conversion of a value that is not a
    string, and the answer of [$fetch.raw] to a call (a response, or the
    [FetchError] it rejects with). *)
Variable JSON_parse : string -> Outcome JsValue.
Variable ToString : JsValue -> Outcome string.
Variable fetch_raw : string -> FetchOptions -> Outcome FetchResponse.

(** [new Error(v)] *)
Definition new_Error (v : JsValue) : M JsError :=
  match v with
  | VStr s => ret (Error s)
  | VUndefined => ret (Error "")
  | _ => s <- lift (ToString v) ;; ret (Error s)
  end.

(** [handleResponse(response)] *)
Definition handleResponse (response : FetchResponse) : M JsValue :=
  let data := _data response in
  if Js.is_object data && Js.has "skipResponseInterceptor" data then ret data
  else if is_octet_stream (content_type response) || Js.instanceof_Blob data then
    (match data with
     | VBlob b =>
         if Str.startsWith (blob_type b) "application/json" then
           let text := blob_text b in
           try_catch
             (errorData <- lift (JSON_parse text) ;;
              success <- lift (Js.get errorData "success") ;;
              if negb (Js.truthy success) then
                (msg <- lift (Js.get errorData "msg") ;;
                 handleError (Js.or msg (VStr MSG_DOWNLOAD_FAILED)) ;;;
                 msg' <- lift (Js.get errorData "msg") ;;
                 e <- new_Error (Js.or msg' (VStr MSG_DOWNLOAD_FAILED)) ;;
                 throw e)
              else ret tt)
             (fun _ => ret tt)
         else ret tt
     | _ => ret tt
     end) ;;;
    ret (success_envelope data)
  else if Js.is_object data && Js.has "success" data then
    let apiRes := data in
    success <- lift (Js.get apiRes "success") ;;
    if negb (Js.truthy success) then
      (code <- lift (Js.get apiRes "code") ;;
       msg <- lift (Js.get apiRes "msg") ;;
       (if Js.strict_eq_str code "401" || Js.strict_eq_num code 401%float
        then handleError (Js.or msg (VStr MSG_UNAUTHORIZED))
        else handleError (Js.or msg (VStr MSG_REQUEST_FAILED))) ;;;
       msg' <- lift (Js.get apiRes "msg") ;;
       e <- new_Error (Js.or msg' (VStr MSG_REQUEST_FAILED)) ;;
       throw e)
    else ret apiRes
  else ret (success_envelope data).

(** [request(config)] *)
Definition request (config : RequestConfig) : M JsValue :=
  let method_ := from_option GET (method config) in
  let skipErrorHandler_ := from_option false (skipErrorHandler config) in
  let skipResponseInterceptor_ := from_option false (skipResponseInterceptor config) in
  try_catch
    (let fullUrl := getApiUrl API_CONFIG (url config) in
     let headers_ := createHeaders config in
     response <- lift (fetch_raw fullUrl (fetch_options method_ headers_ config)) ;;
     if skipResponseInterceptor_ then ret (success_envelope (_data response))
     else handleResponse response)
    (fun error =>
       (if negb skipErrorHandler_ then
          match response error with
          | Some r =>
              let errorMsg :=
                Js.or (match StatusCodeMessage (status r) with
                       | Some m => VStr m
                       | None => VUndefined
                       end) (VStr MSG_NO_RESPONSE) in
              handleError errorMsg
          | None =>
              if Str.nonempty (message error) then
                if negb (Str.includes (message error) MSG_REQUEST_FAILED)
                   && negb (Str.includes (message error) MSG_DOWNLOAD_FAILED)
                then handleError (Js.or (VStr (message error)) (VStr MSG_NETWORK))
                else ret tt
              else handleError (VStr MSG_NETWORK)
          end
        else ret tt) ;;;
       throw error).

(** [download(url, params, filename)] *)
Definition download (url_ : string) (params_ : option (list (string * JsValue)))
    (filename : option string) : M unit :=
  try_catch
    (response <- request (download_config url_ params_) ;;
     success <- lift (Js.get response "success") ;;
     if Js.truthy success then
       (data <- lift (Js.get response "data") ;;
        match data with
        | VBlob blob =>
            downloadUrl <- createObjectURL blob ;;
            let link :=
              {| href := downloadUrl; download_attr := download_name filename |} in
            emit (AppendChild link) ;;;
            emit (Click link) ;;;
            emit (RemoveChild link) ;;;
            emit (RevokeObjectURL downloadUrl)
        | _ => ret tt
        end)
     else ret tt)
    (fun error => emit (ConsoleError MSG_DOWNLOAD_LOG error) ;;; throw error).

(** [get(url, params, config)] *)
Definition get (url_ : string) (params_ : option (list (string * JsValue)))
    (config : option QueryOverrides) : M JsValue :=
  request (query_config GET url_ params_ config).





(** ** Properties of the dispatcher *)

Ltac monad := cbv [bind lift ret throw try_catch emit handleError new_Error].

Lemma has_lookup (k : string) (props : list (string * JsValue)) (v : JsValue) :
  Js.lookup k props = Some v -> Js.has k (VObj props) = true.
Proof. intros H. unfold Js.has. now rewrite H. Qed.

Lemma has_lookup_none (k : string) (props : list (string * JsValue)) :
  Js.lookup k props = None -> Js.has k (VObj props) = false.
Proof. intros H. unfold Js.has. now rewrite H. Qed.

Lemma get_lookup (k : string) (props : list (string * JsValue)) (v : JsValue) :
  Js.lookup k props = Some v -> Js.get (VObj props) k = Return v.
Proof. intros H. unfold Js.get. now rewrite H. Qed.

Lemma or_nonempty (s : string) (d : JsValue) :
  Str.nonempty s = true -> Js.or (VStr s) d = VStr s.
Proof. intros H. unfold Js.or. simpl. now rewrite H. Qed.

Lemma toasts_app (t u : Trace) : toasts (t ++ u)%list = (toasts t ++ toasts u)%list.
Proof.
  induction t as [|e t IH]; [reflexivity|].
  destruct e; simpl; rewrite IH; reflexivity.
Qed.

Lemma toasts_snoc (t : Trace) (m : JsValue) (d : Z) :
  toasts (t ++ [Toast m d])%list = (toasts t ++ [m])%list.
Proof. now rewrite toasts_app. Qed.

Lemma saves_app (t u : Trace) : saves (t ++ u)%list = (saves t ++ saves u)%list.
Proof.
  induction t as [|e t IH]; [reflexivity|].
  destruct e; simpl; rewrite IH; reflexivity.
Qed.

(** *** The classifier *)

(** A body that holds the name [skipResponseInterceptor] is returned as it
    is, before any classification. *)
Lemma handleResponse_flagged (r : FetchResponse) (props : list (string * JsValue))
    (v : JsValue) (t : Trace) :
  _data r = VObj props ->
  Js.lookup "skipResponseInterceptor" props = Some v ->
  handleResponse r t = (Return (VObj props), t).
Proof.
  intros Hd Hk. unfold handleResponse. rewrite Hd.
  rewrite (has_lookup _ _ _ Hk). reflexivity.
Qed.

Lemma handleResponse_success (r : FetchResponse) (props : list (string * JsValue))
    (s : JsValue) (t : Trace) :
  _data r = VObj props ->
  is_octet_stream (content_type r) = false ->
  Js.lookup "success" props = Some s ->
  Js.truthy s = true ->
  handleResponse r t = (Return (VObj props), t).
Proof.
  intros Hd Hct Hs Ht. unfold handleResponse. rewrite Hd.
  destruct (Js.is_object (VObj props) && Js.has "skipResponseInterceptor" (VObj props));
    [reflexivity|].
  rewrite Hct, (has_lookup _ _ _ Hs). simpl andb. simpl orb. cbv iota.
  monad. rewrite (get_lookup _ _ _ Hs), Ht. reflexivity.
Qed.

Lemma handleResponse_failure (r : FetchResponse) (props : list (string * JsValue))
    (s : JsValue) (m : string) (t : Trace) :
  _data r = VObj props ->
  Js.lookup "skipResponseInterceptor" props = None ->
  is_octet_stream (content_type r) = false ->
  Js.lookup "success" props = Some s ->
  Js.truthy s = false ->
  Js.lookup "msg" props = Some (VStr m) ->
  Str.nonempty m = true ->
  handleResponse r t = (Throw (Error m), (t ++ [Toast (VStr m) 5000])%list).
Proof.
  intros Hd Hk Hct Hs Ht Hm Hne. unfold handleResponse. rewrite Hd.
  rewrite (has_lookup_none _ _ Hk), Hct, (has_lookup _ _ _ Hs).
  simpl andb. simpl orb. cbv iota.
  monad. rewrite (get_lookup _ _ _ Hs), Ht. simpl negb. cbv iota.
  rewrite (get_lookup _ _ _ Hm). rewrite !(or_nonempty _ _ Hne).
  destruct (Js.get (VObj props) "code") as [code|e] eqn:Ec.
  - destruct (Js.strict_eq_str code "401" || Js.strict_eq_num code 401); reflexivity.
  - unfold Js.get in Ec. discriminate Ec.
Qed.

(** A blob typed as JSON whose text parses to a failure body: the notifier
    is called and the error that is thrown next is caught by the [catch] of
    the same [try]. *)
Lemma handleResponse_json_blob_failure (r : FetchResponse) (b : Blob)
    (props : list (string * JsValue)) (s : JsValue) (m : string) (t : Trace) :
  _data r = VBlob b ->
  Str.startsWith (blob_type b) "application/json" = true ->
  JSON_parse (blob_text b) = Return (VObj props) ->
  Js.lookup "success" props = Some s ->
  Js.truthy s = false ->
  Js.lookup "msg" props = Some (VStr m) ->
  Str.nonempty m = true ->
  handleResponse r t
  = (Return (success_envelope (VBlob b)), (t ++ [Toast (VStr m) 5000])%list).
Proof.
  intros Hd Hty Hp Hs Ht Hm Hne. unfold handleResponse. rewrite Hd.
  simpl Js.has. simpl Js.is_object. simpl Js.instanceof_Blob.
  rewrite andb_false_r, orb_true_r. cbv iota. rewrite Hty.
  monad. rewrite Hp, (get_lookup _ _ _ Hs), Ht. simpl negb. cbv iota.
  rewrite (get_lookup _ _ _ Hm), !(or_nonempty _ _ Hne). reflexivity.
Qed.

(** A body that is neither an object holding [skipResponseInterceptor] or
    [success], nor a blob, under a content type that is not a byte stream,
    is wrapped. *)
Lemma handleResponse_other (r : FetchResponse) (t : Trace) :
  Js.has "skipResponseInterceptor" (_data r) = false ->
  is_octet_stream (content_type r) = false ->
  Js.instanceof_Blob (_data r) = false ->
  Js.has "success" (_data r) = false ->
  handleResponse r t = (Return (success_envelope (_data r)), t).
Proof.
  intros Hk Hct Hb Hs. unfold handleResponse.
  rewrite Hk, Hct, Hb, Hs, !andb_false_r. reflexivity.
Qed.

(** *** The dispatcher *)

Lemma request_fetched (config : RequestConfig) (r : FetchResponse) (t : Trace) :
  fetch_raw (request_url config) (request_options config) = Return r ->
  from_option false (skipResponseInterceptor config) = false ->
  request config t
  = try_catch (handleResponse r)
      (fun error =>
         (if negb (from_option false (skipErrorHandler config)) then
            match response error with
            | Some r =>
                handleError
                  (Js.or (match StatusCodeMessage (status r) with
                          | Some m => VStr m
                          | None => VUndefined
                          end) (VStr MSG_NO_RESPONSE))
            | None =>
                if Str.nonempty (message error) then
                  if negb (Str.includes (message error) MSG_REQUEST_FAILED)
                     && negb (Str.includes (message error) MSG_DOWNLOAD_FAILED)
                  then handleError (Js.or (VStr (message error)) (VStr MSG_NETWORK))
                  else ret tt
                else handleError (VStr MSG_NETWORK)
            end
          else ret tt) ;;;
         throw error) t.
Proof.
  intros Hf Hs. unfold request_url, request_options in Hf.
  unfold request. cbv [try_catch bind lift]. rewrite Hf, Hs. reflexivity.
Qed.

Lemma request_fetched_bypass (config : RequestConfig) (r : FetchResponse) (t : Trace) :
  fetch_raw (request_url config) (request_options config) = Return r ->
  from_option false (skipResponseInterceptor config) = true ->
  request config t = (Return (success_envelope (_data r)), t).
Proof.
  intros Hf Hs. unfold request_url, request_options in Hf.
  unfold request. cbv [try_catch bind lift]. rewrite Hf, Hs. reflexivity.
Qed.

(** C7, as amended: without the normalisation bypass, when the content type
    is not a byte stream and the body is an object whose [success] is true
    (or any truthy value), the call returns that body itself, so its [data]
    is the [data] of the body, and no effect occurs: the trace, and with it
    the list of notifications, is the one before the call. *)
Theorem request_success_unchanged (config : RequestConfig) (r : FetchResponse)
    (props : list (string * JsValue)) (s X : JsValue) (t : Trace) :
  from_option false (skipResponseInterceptor config) = false ->
  fetch_raw (request_url config) (request_options config) = Return r ->
  is_octet_stream (content_type r) = false ->
  _data r = VObj props ->
  Js.lookup "success" props = Some s ->
  Js.truthy s = true ->
  Js.lookup "data" props = Some X ->
  request config t = (Return (VObj props), t)
  /\ Js.get (VObj props) "data" = Return X.
Proof.
  intros Hb Hf Hct Hd Hs Ht HX. split; [|now apply get_lookup].
  rewrite (request_fetched _ _ _ Hf Hb). unfold try_catch.
  now rewrite (handleResponse_success _ _ _ _ Hd Hct Hs Ht).
Qed.

Lemma request_rejected (config : RequestConfig) (e : JsError) (t : Trace) :
  fetch_raw (request_url config) (request_options config) = Throw e ->
  exists t', request config t = (Throw e, t').
Proof.
  intros Hf. unfold request_url, request_options in Hf.
  unfold request. cbv [try_catch bind lift]. rewrite Hf.
  destruct (negb (from_option false (skipErrorHandler config))).
  - destruct (response e) as [r|].
    + eexists. reflexivity.
    + destruct (Str.nonempty (message e)); [|eexists; reflexivity].
      destruct (negb (Str.includes (message e) MSG_REQUEST_FAILED)
                && negb (Str.includes (message e) MSG_DOWNLOAD_FAILED));
        eexists; reflexivity.
  - eexists. reflexivity.
Qed.

(** With the notification bypass, a failure of the transport (a status
    failure or a network error) is raised without any effect. *)
Lemma request_skip_silent_on_rejection (config : RequestConfig) (e : JsError)
    (t : Trace) :
  from_option false (skipErrorHandler config) = true ->
  fetch_raw (request_url config) (request_options config) = Throw e ->
  request config t = (Throw e, t).
Proof.
  intros Hs Hf. unfold request_url, request_options in Hf.
  unfold request. cbv [try_catch bind lift]. rewrite Hf, Hs. reflexivity.
Qed.

(** C1, on the code: with [skipErrorHandler] set, a failure body
    [{success: false, msg: m}] still triggers one notification, the one of
    the classifier, before the error carrying [m] is raised. *)
Theorem request_skip_flag_still_notifies (config : RequestConfig)
    (r : FetchResponse) (props : list (string * JsValue)) (s : JsValue)
    (m : string) (t : Trace) :
  from_option false (skipErrorHandler config) = true ->
  from_option false (skipResponseInterceptor config) = false ->
  fetch_raw (request_url config) (request_options config) = Return r ->
  is_octet_stream (content_type r) = false ->
  _data r = VObj props ->
  Js.lookup "skipResponseInterceptor" props = None ->
  Js.lookup "success" props = Some s ->
  Js.truthy s = false ->
  Js.lookup "msg" props = Some (VStr m) ->
  Str.nonempty m = true ->
  request config t = (Throw (Error m), (t ++ [Toast (VStr m) 5000])%list)
  /\ toasts (t ++ [Toast (VStr m) 5000])%list = (toasts t ++ [VStr m])%list.
Proof.
  intros He Hb Hf Hct Hd Hk Hs Ht Hm Hne. split.
  - rewrite (request_fetched _ _ _ Hf Hb). unfold try_catch.
    rewrite (handleResponse_failure _ _ _ _ _ Hd Hk Hct Hs Ht Hm Hne).
    rewrite He. reflexivity.
  - apply toasts_snoc.
Qed.

(** C2, on the code: for a blob typed as JSON whose text is a failure body
    [{success: false, msg: m}], the call notifies [m] and then resolves with
    the envelope that wraps the blob; no error reaches the caller. *)
Theorem request_json_blob_failure_resolves (config : RequestConfig)
    (r : FetchResponse) (b : Blob) (props : list (string * JsValue))
    (s : JsValue) (m : string) (t : Trace) :
  from_option false (skipResponseInterceptor config) = false ->
  fetch_raw (request_url config) (request_options config) = Return r ->
  _data r = VBlob b ->
  Str.startsWith (blob_type b) "application/json" = true ->
  JSON_parse (blob_text b) = Return (VObj props) ->
  Js.lookup "success" props = Some s ->
  Js.truthy s = false ->
  Js.lookup "msg" props = Some (VStr m) ->
  Str.nonempty m = true ->
  request config t
  = (Return (success_envelope (VBlob b)), (t ++ [Toast (VStr m) 5000])%list).
Proof.
  intros Hb Hf Hd Hty Hp Hs Ht Hm Hne.
  rewrite (request_fetched _ _ _ Hf Hb). unfold try_catch.
  now rewrite (handleResponse_json_blob_failure _ _ _ _ _ _ Hd Hty Hp Hs Ht Hm Hne).
Qed.

(** The other half of C2: a blob that is not typed as JSON is wrapped,
    without any effect. *)
Lemma request_blob_wrapped (config : RequestConfig) (r : FetchResponse)
    (b : Blob) (t : Trace) :
  from_option false (skipResponseInterceptor config) = false ->
  fetch_raw (request_url config) (request_options config) = Return r ->
  _data r = VBlob b ->
  Str.startsWith (blob_type b) "application/json" = false ->
  request config t = (Return (success_envelope (VBlob b)), t).
Proof.
  intros Hb Hf Hd Hty. rewrite (request_fetched _ _ _ Hf Hb).
  unfold try_catch, handleResponse. rewrite Hd.
  simpl Js.has. simpl Js.is_object. simpl Js.instanceof_Blob.
  rewrite andb_false_r, orb_true_r. cbv iota. rewrite Hty. reflexivity.
Qed.

(** C3, on the code: without bypass flags, a failure body
    [{success: false, msg: m}] whose message holds neither of the two markers
    that the dispatcher looks for is notified twice, once by the classifier
    and once more by the [catch] of the dispatcher, before the error carrying
    [m] is raised. *)
Theorem request_failure_notifies_twice (config : RequestConfig)
    (r : FetchResponse) (props : list (string * JsValue)) (s : JsValue)
    (m : string) (t : Trace) :
  from_option false (skipErrorHandler config) = false ->
  from_option false (skipResponseInterceptor config) = false ->
  fetch_raw (request_url config) (request_options config) = Return r ->
  is_octet_stream (content_type r) = false ->
  _data r = VObj props ->
  Js.lookup "skipResponseInterceptor" props = None ->
  Js.lookup "success" props = Some s ->
  Js.truthy s = false ->
  Js.lookup "msg" props = Some (VStr m) ->
  Str.nonempty m = true ->
  Str.includes m MSG_REQUEST_FAILED = false ->
  Str.includes m MSG_DOWNLOAD_FAILED = false ->
  request config t
  = (Throw (Error m), (t ++ [Toast (VStr m) 5000; Toast (VStr m) 5000])%list)
  /\ toasts (t ++ [Toast (VStr m) 5000; Toast (VStr m) 5000])%list
     = (toasts t ++ [VStr m; VStr m])%list.
Proof.
  intros He Hb Hf Hct Hd Hk Hs Ht Hm Hne Hi1 Hi2. split.
  - rewrite (request_fetched _ _ _ Hf Hb). unfold try_catch.
    rewrite (handleResponse_failure _ _ _ _ _ Hd Hk Hct Hs Ht Hm Hne).
    rewrite He. monad.
    change (response (Error m)) with (@None FetchResponse).
    change (message (Error m)) with m.
    rewrite Hne, Hi1, Hi2, !(or_nonempty _ _ Hne).
    simpl. now rewrite <- app_assoc.
  - rewrite toasts_app. reflexivity.
Qed.

(** When the message holds one of the markers, or the body has no message
    so that the default one is used, the second notification is skipped. *)
Lemma request_failure_default_message_once (config : RequestConfig)
    (r : FetchResponse) (props : list (string * JsValue)) (s : JsValue)
    (t : Trace) :
  from_option false (skipErrorHandler config) = false ->
  from_option false (skipResponseInterceptor config) = false ->
  fetch_raw (request_url config) (request_options config) = Return r ->
  is_octet_stream (content_type r) = false ->
  _data r = VObj props ->
  Js.lookup "skipResponseInterceptor" props = None ->
  Js.lookup "success" props = Some s ->
  Js.truthy s = false ->
  Js.lookup "msg" props = None ->
  Js.lookup "code" props = None ->
  request config t
  = (Throw (Error MSG_REQUEST_FAILED),
     (t ++ [Toast (VStr MSG_REQUEST_FAILED) 5000])%list).
Proof.
  intros He Hb Hf Hct Hd Hk Hs Ht Hm Hc.
  rewrite (request_fetched _ _ _ Hf Hb). unfold try_catch, handleResponse.
  rewrite Hd, (has_lookup_none _ _ Hk), Hct, (has_lookup _ _ _ Hs).
  simpl andb. simpl orb. cbv iota.
  monad. rewrite (get_lookup _ _ _ Hs), Ht. unfold Js.get. rewrite Hm, Hc, He.
  reflexivity.
Qed.

(** C4, on the code: without the normalisation bypass, a body that holds the
    name [skipResponseInterceptor] is handed to the caller as it came,
    whatever its shape and whatever the content type. *)
Theorem request_leaks_flagged_body (config : RequestConfig) (r : FetchResponse)
    (props : list (string * JsValue)) (v : JsValue) (t : Trace) :
  from_option false (skipResponseInterceptor config) = false ->
  fetch_raw (request_url config) (request_options config) = Return r ->
  _data r = VObj props ->
  Js.lookup "skipResponseInterceptor" props = Some v ->
  request config t = (Return (_data r), t).
Proof.
  intros Hb Hf Hd Hk. rewrite (request_fetched _ _ _ Hf Hb). unfold try_catch.
  now rewrite (handleResponse_flagged _ _ _ _ Hd Hk), Hd.
Qed.

(** With the normalisation bypass the body is not returned raw either: it is
    wrapped, uninspected, in a success envelope. *)
Lemma request_bypass_is_envelope (config : RequestConfig) (r : FetchResponse)
    (t : Trace) :
  from_option false (skipResponseInterceptor config) = true ->
  fetch_raw (request_url config) (request_options config) = Return r ->
  exists v, request config t = (Return v, t) /\ is_envelope v = true.
Proof.
  intros Hb Hf. exists (success_envelope (_data r)).
  split; [now apply request_fetched_bypass|reflexivity].
Qed.

(** C8, on the code: a body that is neither a blob, nor under a byte-stream
    content type, nor an object with a [success] field, is returned as it
    came, and not wrapped, when it holds the name
    [skipResponseInterceptor]. *)
Theorem request_flagged_body_not_wrapped (config : RequestConfig)
    (r : FetchResponse) (props : list (string * JsValue)) (v : JsValue)
    (t : Trace) :
  from_option false (skipResponseInterceptor config) = false ->
  fetch_raw (request_url config) (request_options config) = Return r ->
  is_octet_stream (content_type r) = false ->
  _data r = VObj props ->
  Js.lookup "success" props = None ->
  Js.lookup "skipResponseInterceptor" props = Some v ->
  request config t = (Return (VObj props), t)
  /\ VObj props <> success_envelope (VObj props).
Proof.
  intros Hb Hf _ Hd Hs Hk. split.
  - rewrite (request_fetched _ _ _ Hf Hb). unfold try_catch.
    now rewrite (handleResponse_flagged _ _ _ _ Hd Hk).
  - intros E. unfold success_envelope in E. injection E as E.
    rewrite E in Hs. discriminate Hs.
Qed.

(** Apart from such a body, C8 holds: the body is wrapped in the synthetic
    envelope and nothing else happens. *)
Lemma request_wraps_other_bodies (config : RequestConfig) (r : FetchResponse)
    (t : Trace) :
  from_option false (skipResponseInterceptor config) = false ->
  fetch_raw (request_url config) (request_options config) = Return r ->
  is_octet_stream (content_type r) = false ->
  Js.instanceof_Blob (_data r) = false ->
  Js.has "success" (_data r) = false ->
  Js.has "skipResponseInterceptor" (_data r) = false ->
  request config t = (Return (success_envelope (_data r)), t).
Proof.
  intros Hb Hf Hct Hbl Hs Hk. rewrite (request_fetched _ _ _ Hf Hb).
  unfold try_catch. now rewrite (handleResponse_other _ _ Hk Hct Hbl Hs).
Qed.

(** *** The download helper *)

(** C9, as amended: when the call is answered with a blob, [download]
    resolves after exactly one save, a click on a link to a fresh object URL
    of that blob, which is revoked afterwards; the link is named by the
    filename when one is given and is not empty, and ["download"] when none
    is given or the one given is empty. *)
Theorem download_saves_blob_once (url_ : string)
    (params_ : option (list (string * JsValue))) (filename : option string)
    (r : FetchResponse) (b : Blob) (t : Trace) :
  fetch_raw (request_url (download_config url_ params_))
            (request_options (download_config url_ params_)) = Return r ->
  _data r = VBlob b ->
  exists l t',
    download url_ params_ filename t = (Return tt, t')
    /\ t' = (t ++ [CreateObjectURL b (href l); AppendChild l; Click l;
                   RemoveChild l; RevokeObjectURL (href l)])%list
    /\ saves t' = (saves t ++ [l])%list
    /\ (forall f, filename = Some f -> Str.nonempty f = true -> download_attr l = f)
    /\ (filename = None \/ filename = Some "" -> download_attr l = "download").
Proof.
  intros Hf Hd.
  exists {| href := List.length t; download_attr := download_name filename |}.
  eexists. split; [|split; [reflexivity|split; [|split]]].
  - unfold download. cbv [try_catch bind].
    rewrite (request_fetched_bypass _ _ t Hf eq_refl), Hd.
    cbv [lift createObjectURL emit]. simpl.
    rewrite <- !app_assoc. reflexivity.
  - rewrite saves_app. simpl. reflexivity.
  - intros f -> Hne. simpl. now rewrite Hne.
  - intros [->| ->]; reflexivity.
Qed.

(** C10: when the request of [download] resolves and the payload of its
    envelope is not a blob, [download] resolves as well, in the state the
    request left: no save, no log, no error. *)
Theorem download_without_blob_is_silent (url_ : string)
    (params_ : option (list (string * JsValue))) (filename : option string)
    (resp d : JsValue) (t t' : Trace) :
  request (download_config url_ params_) t = (Return resp, t') ->
  Js.get resp "data" = Return d ->
  Js.instanceof_Blob d = false ->
  download url_ params_ filename t = (Return tt, t').
Proof.
  intros Hr Hg Hb.
  destruct (fetch_raw (request_url (download_config url_ params_))
              (request_options (download_config url_ params_))) as [r|e] eqn:Hf.
  - rewrite (request_fetched_bypass _ _ t Hf eq_refl) in Hr.
    injection Hr as <- <-. simpl in Hg. injection Hg as Hg. rewrite <- Hg in Hb.
    unfold download. cbv [try_catch bind].
    rewrite (request_fetched_bypass _ _ t Hf eq_refl).
    cbv [lift]. simpl. destruct (_data r); try reflexivity. discriminate Hb.
  - destruct (request_rejected _ _ t Hf) as [t'' Ht]. congruence.
Qed.


(** ** Further properties of the dispatcher *)

Lemma or_truthy (v d : JsValue) :
  Js.truthy d = true -> Js.truthy (Js.or v d) = true.
Proof. intros H. unfold Js.or. now destruct (Js.truthy v) eqn:E. Qed.

Lemma handleError_run (v : JsValue) (t : Trace) :
  handleError v t
  = (Return tt, (t ++ [Toast (Js.or v (VStr MSG_SERVER_ERROR)) 5000])%list).
Proof. reflexivity. Qed.

Lemma handleError_notification (v : JsValue) :
  is_notification (Toast (Js.or v (VStr MSG_SERVER_ERROR)) 5000) = true.
Proof. simpl. now rewrite or_truthy. Qed.

(** Every entry of the status table is a non-empty string. *)
Lemma StatusCodeMessage_nonempty (st : Z) (m : string) :
  StatusCodeMessage st = Some m -> Str.nonempty m = true.
Proof.
  unfold StatusCodeMessage. intros H.
  destruct st as [|p|p]; try discriminate H.
  repeat (destruct p as [p|p|]; try discriminate H);
    injection H as <-; reflexivity.
Qed.

Lemma request_catch (config : RequestConfig) (t : Trace) :
  request config t
  = try_catch
      (response <- lift (fetch_raw (request_url config) (request_options config)) ;;
       if from_option false (skipResponseInterceptor config)
       then ret (success_envelope (_data response))
       else handleResponse response)
      (on_rejection (from_option false (skipErrorHandler config))) t.
Proof. reflexivity. Qed.

Lemma request_on_rejection (config : RequestConfig) (e : JsError) (t : Trace) :
  fetch_raw (request_url config) (request_options config) = Throw e ->
  request config t = on_rejection (from_option false (skipErrorHandler config)) e t.
Proof.
  intros Hf. rewrite request_catch. cbv [try_catch bind lift]. now rewrite Hf.
Qed.

Lemma includes_empty (sub : string) :
  Str.nonempty sub = true -> Str.includes EmptyString sub = false.
Proof. destruct sub; [discriminate|reflexivity]. Qed.

(** X1: when the transport rejects the call with a response, and the
    notification bypass is not set, the dispatcher issues exactly one
    notification, the entry of the status table for the status of that
    response or the generic message when the table has none, and raises the
    error it caught. *)
Theorem request_status_rejection (config : RequestConfig) (e : JsError)
    (r : FetchResponse) (t : Trace) :
  from_option false (skipErrorHandler config) = false ->
  fetch_raw (request_url config) (request_options config) = Throw e ->
  response e = Some r ->
  request config t
  = (Throw e,
     (t ++ [Toast (VStr (from_option MSG_NO_RESPONSE (StatusCodeMessage (status r))))
                  5000])%list).
Proof.
  intros Hs Hf Hr. rewrite (request_on_rejection _ _ _ Hf), Hs.
  unfold on_rejection. rewrite Hr. monad. simpl negb. cbv iota.
  destruct (StatusCodeMessage (status r)) as [m|] eqn:Hm; [|reflexivity].
  simpl from_option.
  now rewrite !(or_nonempty _ _ (StatusCodeMessage_nonempty _ _ Hm)).
Qed.


(** X3: an error without a response whose message holds one of the two
    markers is raised without any notification, also when it comes from the
    transport and was never notified. *)
Theorem request_marker_rejection_silent (config : RequestConfig) (e : JsError)
    (t : Trace) :
  fetch_raw (request_url config) (request_options config) = Throw e ->
  response e = None ->
  Str.includes (message e) MSG_REQUEST_FAILED = true
  \/ Str.includes (message e) MSG_DOWNLOAD_FAILED = true ->
  request config t = (Throw e, t).
Proof.
  intros Hf Hr Hm. rewrite (request_on_rejection _ _ _ Hf).
  unfold on_rejection. rewrite Hr.
  destruct (from_option false (skipErrorHandler config)); [reflexivity|].
  assert (Hne : Str.nonempty (message e) = true).
  { destruct (message e); [|reflexivity].
    destruct Hm as [Hm|Hm]; rewrite includes_empty in Hm;
      [discriminate Hm|reflexivity|discriminate Hm|reflexivity]. }
  rewrite Hne. simpl negb. cbv iota.
  destruct Hm as [Hm|Hm]; rewrite Hm; [reflexivity|].
  now rewrite andb_false_r.
Qed.


(** The [catch] block raises the error it caught, after at most one
    notification. *)
Lemma on_rejection_frame (skip : bool) (e : JsError) (t : Trace) :
  exists ns,
    on_rejection skip e t = (Throw e, (t ++ ns)%list)
    /\ forallb is_notification ns = true
    /\ (List.length ns <= 1)%nat.
Proof.
  unfold on_rejection.
  assert (Hnone : exists ns : Trace,
             (Throw (A:=JsValue) e, t) = (Throw e, (t ++ ns)%list)
             /\ forallb is_notification ns = true /\ (List.length ns <= 1)%nat).
  { exists []. rewrite app_nil_r. repeat split. simpl. lia. }
  assert (Hone : forall v, exists ns : Trace,
             (Throw (A:=JsValue) e,
              (t ++ [Toast (Js.or v (VStr MSG_SERVER_ERROR)) 5000])%list)
             = (Throw e, (t ++ ns)%list)
             /\ forallb is_notification ns = true /\ (List.length ns <= 1)%nat).
  { intros v. eexists [_]. split; [reflexivity|]. split; [|simpl; lia].
    cbn [forallb]. now rewrite handleError_notification. }
  destruct skip; [exact Hnone|]. simpl negb. cbv iota.
  destruct (response e) as [r|]; [apply Hone|].
  destruct (Str.nonempty (message e)); [|apply Hone].
  destruct (negb (Str.includes (message e) MSG_REQUEST_FAILED)
            && negb (Str.includes (message e) MSG_DOWNLOAD_FAILED));
    [apply Hone|exact Hnone].
Qed.

(** X5: a rejection of the transport is never turned into a result: the
    dispatcher raises the very error it caught, after at most one
    notification and no other effect. *)
Theorem request_rejection_reraised (config : RequestConfig) (e : JsError)
    (t : Trace) :
  fetch_raw (request_url config) (request_options config) = Throw e ->
  exists ns,
    request config t = (Throw e, (t ++ ns)%list)
    /\ forallb is_notification ns = true
    /\ (List.length ns <= 1)%nat.
Proof.
  intros Hf. rewrite (request_on_rejection _ _ _ Hf). apply on_rejection_frame.
Qed.

(** Case analysis along the code: a scrutinee is split once nothing inside
    it is left to split. *)
Ltac split_scrutinee :=
  match goal with
  | |- context [match ?x with _ => _ end] =>
      lazymatch x with
      | context [match _ with _ => _ end] => fail
      | _ => destruct x eqn:?
      end
  end.

Ltac along_code := repeat (cbn beta iota; split_scrutinee).

Lemma frame_none {A} (o : Outcome A) (t : Trace) (n : nat) :
  exists ns,
    snd (o, t) = (t ++ ns)%list
    /\ forallb is_notification ns = true /\ (List.length ns <= n)%nat.
Proof. exists []. simpl. rewrite app_nil_r. repeat split. lia. Qed.

Lemma frame_one {A} (o : Outcome A) (t : Trace) (v : JsValue) (n : nat) :
  exists ns,
    snd (o, (t ++ [Toast (Js.or v (VStr MSG_SERVER_ERROR)) 5000])%list)
    = (t ++ ns)%list
    /\ forallb is_notification ns = true /\ (List.length ns <= S n)%nat.
Proof.
  eexists [_]. split; [reflexivity|]. split; [|simpl; lia].
  cbn [forallb]. now rewrite handleError_notification.
Qed.

(** The classifier extends the trace by at most one notification. *)
Lemma handleResponse_frame (r : FetchResponse) (t : Trace) :
  exists ns,
    snd (handleResponse r t) = (t ++ ns)%list
    /\ forallb is_notification ns = true
    /\ (List.length ns <= 1)%nat.
Proof.
  unfold handleResponse. monad. along_code;
    first [apply frame_none | apply frame_one].
Qed.

(** What the classifier can return: the envelope around the body, or the
    body itself, when it holds [skipResponseInterceptor] or is an object
    whose [success] is truthy. *)
Lemma handleResponse_returns (r : FetchResponse) (v : JsValue) (t t' : Trace) :
  handleResponse r t = (Return v, t') ->
  v = success_envelope (_data r)
  \/ (v = _data r /\ Js.has "skipResponseInterceptor" v = true)
  \/ (v = _data r /\ Js.has "success" v = true
      /\ exists s, Js.get v "success" = Return s /\ Js.truthy s = true).
Proof.
  unfold handleResponse. monad. along_code;
    intros H; try discriminate H; injection H as <- <-;
    try (left; reflexivity).
  all: try (right; left; split; [reflexivity|];
            match goal with
            | E : _ && Js.has "skipResponseInterceptor" _ = true |- _ =>
                apply andb_prop in E; tauto
            end).
  all: right; right; split; [reflexivity|]; split;
    [ match goal with
      | E : _ && Js.has "success" _ = true |- _ => apply andb_prop in E; tauto
      end
    | eexists; split; [eassumption|];
      match goal with
      | E : negb (Js.truthy _) = false |- _ => now apply negb_false_iff in E
      end ].
Qed.

Lemma get_of_object (d : JsValue) (k : string) (e : JsError) :
  Js.is_object d = true -> Js.get d k = Throw e -> False.
Proof. destruct d; simpl; intros H1 H2; discriminate. Qed.

(** When the classifier raises, it has notified exactly once. *)
Lemma handleResponse_raises (r : FetchResponse) (e : JsError) (t t' : Trace) :
  handleResponse r t = (Throw e, t') ->
  exists v, t' = (t ++ [Toast (Js.or v (VStr MSG_SERVER_ERROR)) 5000])%list.
Proof.
  unfold handleResponse. monad. along_code;
    intros H; try discriminate H; injection H as <- <-;
    try (eexists; reflexivity).
  all: exfalso;
    match goal with
    | O : Js.is_object ?d && _ = true, E : Js.get ?d _ = Throw _ |- _ =>
        apply andb_prop in O; destruct O as [O _]; exact (get_of_object _ _ _ O E)
    end.
Qed.

Lemma forallb_notification_app (a b : Trace) :
  forallb is_notification a = true ->
  forallb is_notification b = true ->
  forallb is_notification (a ++ b)%list = true.
Proof. intros Ha Hb. now rewrite forallb_app, Ha, Hb. Qed.

(** X6: whatever the configuration, the transport and the body, a call of
    the dispatcher only appends to the trace, and what it appends is at most
    two notifications, each of five seconds and with a message that is not
    empty; it never writes to the console or touches the document. *)
Theorem request_frame (config : RequestConfig) (t : Trace) :
  exists ns,
    snd (request config t) = (t ++ ns)%list
    /\ forallb is_notification ns = true
    /\ (List.length ns <= 2)%nat.
Proof.
  rewrite request_catch. cbv [try_catch bind lift].
  destruct (fetch_raw (request_url config) (request_options config)) as [r|e].
  - destruct (from_option false (skipResponseInterceptor config));
      [apply frame_none|].
    destruct (handleResponse_frame r t) as (ns & Ht & Hn & Hl).
    destruct (handleResponse r t) as [[v|e] t1]; simpl in Ht; subst t1.
    + exists ns. simpl. repeat split; [assumption|lia].
    + destruct (on_rejection_frame
                  (from_option false (skipErrorHandler config)) e (t ++ ns)%list)
        as (ms & Hr & Hm & Hk).
      rewrite Hr. exists (ns ++ ms)%list. simpl. rewrite app_assoc.
      split; [reflexivity|]. split; [now apply forallb_notification_app|].
      rewrite length_app. lia.
  - destruct (on_rejection_frame
                (from_option false (skipErrorHandler config)) e t)
      as (ms & Hr & Hm & Hk).
    rewrite Hr. exists ms. simpl. repeat split; [assumption|lia].
Qed.

(** X7: the dispatcher resolves only when the transport answered, and what
    it then returns is the success envelope around the body, or the body
    itself when it holds the name [skipResponseInterceptor], or the body
    itself when it is an object whose [success] is truthy. *)
Theorem request_return_shapes (config : RequestConfig) (v : JsValue)
    (t t' : Trace) :
  request config t = (Return v, t') ->
  exists r,
    fetch_raw (request_url config) (request_options config) = Return r
    /\ (v = success_envelope (_data r)
        \/ (v = _data r /\ Js.has "skipResponseInterceptor" v = true)
        \/ (v = _data r /\ Js.has "success" v = true
            /\ exists s, Js.get v "success" = Return s /\ Js.truthy s = true)).
Proof.
  rewrite request_catch. cbv [try_catch bind lift].
  destruct (fetch_raw (request_url config) (request_options config)) as [r|e].
  - intros H. exists r. split; [reflexivity|].
    destruct (from_option false (skipResponseInterceptor config)).
    + injection H as <- _. now left.
    + destruct (handleResponse r t) as [[w|e] t1] eqn:Hh.
      * injection H as <- _. exact (handleResponse_returns _ _ _ _ Hh).
      * destruct (on_rejection_frame
                    (from_option false (skipErrorHandler config)) e t1)
          as (ms & Hr & _). rewrite Hr in H. discriminate H.
  - intros H.
    destruct (on_rejection_frame
                (from_option false (skipErrorHandler config)) e t)
      as (ms & Hr & _). rewrite Hr in H. discriminate H.
Qed.

Lemma run_none {A} (o : Outcome A) (t : Trace) :
  exists ns,
    (o, t) = (o, (t ++ ns)%list)
    /\ forallb is_notification ns = true /\ (List.length ns <= 1)%nat.
Proof. exists []. rewrite app_nil_r. repeat split. simpl. lia. Qed.

Lemma run_one {A} (o : Outcome A) (t : Trace) (v : JsValue) :
  exists ns,
    (o, (t ++ [Toast (Js.or v (VStr MSG_SERVER_ERROR)) 5000])%list)
    = (o, (t ++ ns)%list)
    /\ forallb is_notification ns = true /\ (List.length ns <= 1)%nat.
Proof.
  eexists [_]. split; [reflexivity|]. split; [|simpl; lia].
  cbn [forallb]. now rewrite handleError_notification.
Qed.

(** X8: the binary branch never raises. Without the normalisation bypass,
    when the content type is a byte stream or the body is a blob (and the
    body does not hold [skipResponseInterceptor]), the call resolves with
    the envelope around the body after at most one notification, whatever
    the blob holds and whatever the parser and the string conversion do. *)
Theorem request_binary_never_raises (config : RequestConfig) (r : FetchResponse)
    (t : Trace) :
  from_option false (skipResponseInterceptor config) = false ->
  fetch_raw (request_url config) (request_options config) = Return r ->
  Js.has "skipResponseInterceptor" (_data r) = false ->
  is_octet_stream (content_type r) = true \/ Js.instanceof_Blob (_data r) = true ->
  exists ns,
    request config t = (Return (success_envelope (_data r)), (t ++ ns)%list)
    /\ forallb is_notification ns = true
    /\ (List.length ns <= 1)%nat.
Proof.
  intros Hb Hf Hk Hbin. rewrite (request_fetched _ _ _ Hf Hb).
  assert (Hor : is_octet_stream (content_type r) || Js.instanceof_Blob (_data r)
                = true) by (apply orb_true_iff; exact Hbin).
  clear Hbin Hb Hf. unfold try_catch, handleResponse.
  rewrite Hk, andb_false_r, Hor. clear Hk Hor. monad.
  along_code; first [apply run_none | apply run_one].
Qed.

(** X9: a blob is wrapped without any notification when its text does not
    parse, when it parses to [null] (so that reading [success] throws), or
    when it parses to a value whose [success] is truthy. *)
Theorem request_blob_silent (config : RequestConfig) (r : FetchResponse)
    (b : Blob) (t : Trace) :
  from_option false (skipResponseInterceptor config) = false ->
  fetch_raw (request_url config) (request_options config) = Return r ->
  _data r = VBlob b ->
  (exists e, JSON_parse (blob_text b) = Throw e)
  \/ (exists v e, JSON_parse (blob_text b) = Return v
                  /\ Js.get v "success" = Throw e)
  \/ (exists v s, JSON_parse (blob_text b) = Return v
                  /\ Js.get v "success" = Return s /\ Js.truthy s = true) ->
  request config t = (Return (success_envelope (VBlob b)), t).
Proof.
  intros Hb Hf Hd Hp. rewrite (request_fetched _ _ _ Hf Hb).
  unfold try_catch, handleResponse. rewrite Hd.
  simpl Js.has. simpl Js.is_object. simpl Js.instanceof_Blob.
  rewrite andb_false_r, orb_true_r. cbv iota.
  destruct (Str.startsWith (blob_type b) "application/json"); [|reflexivity].
  monad.
  destruct Hp as [(e & Hp)|[(v & e & Hp & Hg)|(v & s & Hp & Hg & Ht)]];
    rewrite Hp; try rewrite Hg; try rewrite Ht; reflexivity.
Qed.






(** X12: with the normalisation bypass the body is never inspected: every
    answered call resolves, without any effect, with an envelope whose
    [success] is [true] and whose [data] is the body, also when the body is
    itself a failure envelope. *)
Theorem request_bypass_wraps_any_body (config : RequestConfig)
    (r : FetchResponse) (t : Trace) :
  from_option false (skipResponseInterceptor config) = true ->
  fetch_raw (request_url config) (request_options config) = Return r ->
  exists v,
    request config t = (Return v, t)
    /\ Js.get v "success" = Return (VBool true)
    /\ Js.get v "data" = Return (_data r)
    /\ is_envelope v = true.
Proof.
  intros Hb Hf. exists (success_envelope (_data r)).
  split; [now apply request_fetched_bypass|]. repeat split.
Qed.

(** *** Further properties of the download helper *)

(** X13: when the transport rejects the call of [download], the error is
    notified as by the dispatcher (at most once), logged to the console
    once, and raised as it was caught; nothing is saved. *)
Theorem download_rejection_logged (url_ : string)
    (params_ : option (list (string * JsValue))) (filename : option string)
    (e : JsError) (t : Trace) :
  fetch_raw (request_url (download_config url_ params_))
            (request_options (download_config url_ params_)) = Throw e ->
  exists ns,
    download url_ params_ filename t
    = (Throw e, (t ++ ns ++ [ConsoleError MSG_DOWNLOAD_LOG e])%list)
    /\ forallb is_notification ns = true
    /\ (List.length ns <= 1)%nat
    /\ saves (t ++ ns ++ [ConsoleError MSG_DOWNLOAD_LOG e])%list = saves t.
Proof.
  intros Hf. unfold download. cbv [try_catch bind].
  rewrite (request_on_rejection _ _ _ Hf).
  destruct (on_rejection_frame
              (from_option false (skipErrorHandler (download_config url_ params_)))
              e t) as (ns & Hr & Hn & Hl).
  rewrite Hr. exists ns. cbv [emit throw]. rewrite <- app_assoc.
  repeat split; try assumption.
  rewrite !saves_app. simpl. rewrite app_nil_r.
  assert (Hs : saves ns = []).
  { clear - Hn. induction ns as [|x ns IH]; [reflexivity|].
    simpl in Hn. apply andb_prop in Hn as [Hx Hn].
    destruct x; try discriminate Hx. simpl. now apply IH. }
  rewrite Hs. apply app_nil_r.
Qed.

(** X14: when the transport answers the call of [download], [download]
    resolves whatever the status and the body are, without any
    notification; it saves once when the body is a blob and not at all
    otherwise, and every object URL it creates is revoked. *)
Theorem download_resolves_on_answer (url_ : string)
    (params_ : option (list (string * JsValue))) (filename : option string)
    (r : FetchResponse) (t : Trace) :
  fetch_raw (request_url (download_config url_ params_))
            (request_options (download_config url_ params_)) = Return r ->
  exists ns,
    download url_ params_ filename t = (Return tt, (t ++ ns)%list)
    /\ toasts ns = []
    /\ List.length (saves ns) = (if Js.instanceof_Blob (_data r) then 1 else 0)%nat
    /\ created ns = revoked ns.
Proof.
  intros Hf. unfold download. cbv [try_catch bind].
  rewrite (request_fetched_bypass _ _ t Hf eq_refl).
  cbv [lift createObjectURL emit]. simpl.
  destruct (_data r); simpl;
    try solve [exists []; rewrite app_nil_r; repeat split; reflexivity].
  eexists. rewrite <- !app_assoc. simpl. split; [reflexivity|].
  repeat split; reflexivity.
Qed.

(** X16: with the notification bypass the [catch] of the dispatcher is
    silent: a call appends at most one notification, the one of the
    classifier, and none at all when the transport rejects the call. *)
Theorem request_quiet (config : RequestConfig) (t : Trace) :
  from_option false (skipErrorHandler config) = true ->
  exists ns,
    snd (request config t) = (t ++ ns)%list
    /\ forallb is_notification ns = true
    /\ (List.length ns <= 1)%nat
    /\ (forall e,
          fetch_raw (request_url config) (request_options config) = Throw e ->
          ns = []).
Proof.
  intros Hs. rewrite request_catch, Hs. cbv [try_catch bind lift].
  destruct (fetch_raw (request_url config) (request_options config))
    as [r|e] eqn:Hf.
  - destruct (from_option false (skipResponseInterceptor config)).
    + exists []. simpl. rewrite app_nil_r. repeat split; try lia; discriminate.
    + destruct (handleResponse_frame r t) as (ns & Ht & Hn & Hl).
      destruct (handleResponse r t) as [[v|e] t1]; simpl in Ht; subst t1;
        exists ns; repeat split; try assumption; discriminate.
  - exists []. simpl. rewrite app_nil_r. repeat split; lia.
Qed.

(** X23: a body that is no object at all ([undefined] for a response without
    content, [null], a boolean, a number, a string) or an array is wrapped
    in the success envelope without any effect, when the normalisation
    bypass is not set and the content type is not a byte stream. *)
Theorem request_wraps_plain_bodies (config : RequestConfig) (r : FetchResponse)
    (t : Trace) :
  from_option false (skipResponseInterceptor config) = false ->
  fetch_raw (request_url config) (request_options config) = Return r ->
  is_octet_stream (content_type r) = false ->
  match _data r with VObj _ | VBlob _ => False | _ => True end ->
  request config t = (Return (success_envelope (_data r)), t)
  /\ Js.get (success_envelope (_data r)) "data" = Return (_data r).
Proof.
  intros Hb Hf Hct Hd. split; [|reflexivity].
  apply request_wraps_other_bodies; try assumption;
    destruct (_data r); try reflexivity; contradiction.
Qed.


End Dispatcher.

(** ** The dispatcher on concrete calls *)

Lemma request_success_unchanged_witness :
  request parse_failure_text object_to_string (serve (json_response success_body))
    (plain_config "/users") []
  = (Return success_body, [])
  /\ Js.get success_body "data" = Return (VStr "X").
Proof.
  apply (request_success_unchanged parse_failure_text object_to_string
           (serve (json_response success_body)) (plain_config "/users")
           (json_response success_body)
           [("success", VBool true); ("data", VStr "X")]
           (VBool true) (VStr "X") []); reflexivity.
Defined.

(** C7, as stated, fails: under a byte-stream content type (the caller asked
    for a JSON body) the classifier takes the binary branch first and wraps
    the envelope of the server into a second one, whose [data] is the whole
    body and not [X]. *)
Lemma request_octet_stream_rewraps :
  request parse_failure_text object_to_string (serve octet_json_response)
    (json_config "/users") []
  = (Return (success_envelope success_body), [])
  /\ success_envelope success_body <> success_body
  /\ Js.get (success_envelope success_body) "data" <> Return (VStr "X").
Proof.
  split; [reflexivity|split].
  - discriminate.
  - intros H. vm_compute in H. discriminate H.
Qed.

Lemma request_skip_flag_still_notifies_witness :
  request parse_failure_text object_to_string (serve (json_response failure_body))
    (quiet_config "/users") []
  = (Throw (Error "M"), [Toast (VStr "M") 5000])
  /\ toasts [Toast (VStr "M") 5000] = [VStr "M"].
Proof.
  apply (request_skip_flag_still_notifies parse_failure_text object_to_string
           (serve (json_response failure_body)) (quiet_config "/users")
           (json_response failure_body)
           [("success", VBool false); ("msg", VStr "M")]
           (VBool false) "M" []); reflexivity.
Defined.

Lemma request_json_blob_failure_resolves_witness :
  request parse_failure_text object_to_string (serve (blob_response json_blob))
    (plain_config "/export") []
  = (Return (success_envelope (VBlob json_blob)), [Toast (VStr "M") 5000]).
Proof.
  apply (request_json_blob_failure_resolves parse_failure_text object_to_string
           (serve (blob_response json_blob)) (plain_config "/export")
           (blob_response json_blob) json_blob
           [("success", VBool false); ("msg", VStr "M")]
           (VBool false) "M" []); reflexivity.
Defined.

Lemma request_failure_notifies_twice_witness :
  request parse_failure_text object_to_string (serve (json_response failure_body))
    (plain_config "/users") []
  = (Throw (Error "M"), [Toast (VStr "M") 5000; Toast (VStr "M") 5000])
  /\ toasts [Toast (VStr "M") 5000; Toast (VStr "M") 5000] = [VStr "M"; VStr "M"].
Proof.
  apply (request_failure_notifies_twice parse_failure_text object_to_string
           (serve (json_response failure_body)) (plain_config "/users")
           (json_response failure_body)
           [("success", VBool false); ("msg", VStr "M")]
           (VBool false) "M" []); reflexivity.
Defined.

Lemma request_leaks_flagged_body_witness :
  request parse_failure_text object_to_string (serve (json_response flagged_body))
    (plain_config "/users") []
  = (Return flagged_body, [])
  /\ is_envelope flagged_body = false.
Proof.
  split; [|reflexivity].
  apply (request_leaks_flagged_body parse_failure_text object_to_string
           (serve (json_response flagged_body)) (plain_config "/users")
           (json_response flagged_body)
           [("skipResponseInterceptor", VBool true)] (VBool true) []);
    reflexivity.
Defined.

Lemma request_flagged_body_not_wrapped_witness :
  request parse_failure_text object_to_string
    (serve (json_response flagged_list_body)) (plain_config "/items") []
  = (Return flagged_list_body, [])
  /\ flagged_list_body <> success_envelope flagged_list_body.
Proof.
  apply (request_flagged_body_not_wrapped parse_failure_text object_to_string
           (serve (json_response flagged_list_body)) (plain_config "/items")
           (json_response flagged_list_body)
           [("skipResponseInterceptor", VBool true); ("items", VArr [])]
           (VBool true) []); reflexivity.
Defined.

(** C9, as stated, fails: a download that is answered without a body (here
    204) resolves and saves nothing, and an empty filename is replaced by
    ["download"]. *)
Lemma download_resolves_without_save :
  (download parse_failure_text object_to_string (serve no_content_response)
     "/export" None (Some "report.csv") []
   = (Return tt, [])
   /\ List.length (saves []) <> 1%nat)
  /\ saves (snd (download parse_failure_text object_to_string
                   (serve (blob_response pdf_blob)) "/export" None (Some "") []))
     = [{| href := 0; download_attr := "download" |}].
Proof.
  split; [split|].
  - reflexivity.
  - discriminate.
  - reflexivity.
Qed.

Lemma download_saves_blob_once_witness :
  exists l t',
    download parse_failure_text object_to_string (serve (blob_response pdf_blob))
      "/export" None (Some "report.pdf") []
    = (Return tt, t')
    /\ t' = ([] ++ [CreateObjectURL pdf_blob (href l); AppendChild l; Click l;
                    RemoveChild l; RevokeObjectURL (href l)])%list
    /\ saves t' = (saves [] ++ [l])%list
    /\ (forall f, Some "report.pdf" = Some f -> Str.nonempty f = true ->
                  download_attr l = f)
    /\ (Some "report.pdf" = None \/ Some "report.pdf" = Some "" ->
        download_attr l = "download").
Proof.
  apply (download_saves_blob_once parse_failure_text object_to_string
           (serve (blob_response pdf_blob)) "/export" None (Some "report.pdf")
           (blob_response pdf_blob) pdf_blob []); reflexivity.
Defined.

Lemma download_without_blob_is_silent_witness :
  download parse_failure_text object_to_string (serve no_content_response)
    "/export" None (Some "report.csv") []
  = (Return tt, []).
Proof.
  apply (download_without_blob_is_silent parse_failure_text object_to_string
           (serve no_content_response) "/export" None (Some "report.csv")
           (success_envelope VUndefined) VUndefined [] []); reflexivity.
Defined.


(** The [catch] of the dispatcher on rejections of the transport: a mapped
    status, an unmapped one, a network error, and the same network error
    under the notification bypass and through [download]. *)
Example request_status_404 :
  request parse_failure_text object_to_string (reject (status_error 404))
    (plain_config "/users") []
  = (Throw (status_error 404), [Toast (VStr "请求出错(404)") 5000]).
Proof. reflexivity. Qed.

Example request_status_unmapped :
  request parse_failure_text object_to_string (reject (status_error 418))
    (plain_config "/users") []
  = (Throw (status_error 418), [Toast (VStr MSG_NO_RESPONSE) 5000]).
Proof. reflexivity. Qed.

Example request_network_error :
  request parse_failure_text object_to_string (reject network_error)
    (plain_config "/users") []
  = (Throw network_error, [Toast (VStr "Failed to fetch") 5000]).
Proof. reflexivity. Qed.

Example request_network_error_quiet :
  request parse_failure_text object_to_string (reject network_error)
    (quiet_config "/users") []
  = (Throw network_error, []).
Proof. reflexivity. Qed.

Example download_network_error :
  download parse_failure_text object_to_string (reject network_error)
    "/export" None None []
  = (Throw network_error,
     [Toast (VStr "Failed to fetch") 5000;
      ConsoleError MSG_DOWNLOAD_LOG network_error]).
Proof. reflexivity. Qed.

(** ** Further properties on concrete calls *)

Lemma request_status_rejection_witness :
  request parse_failure_text object_to_string (reject (status_error 503))
    (plain_config "/users") []
  = (Throw (status_error 503), [Toast (VStr "服务不可用(503)") 5000]).
Proof.
  apply (request_status_rejection parse_failure_text object_to_string
           (reject (status_error 503)) (plain_config "/users") (status_error 503)
           {| status := 503; content_type := None; _data := VUndefined |} []);
    reflexivity.
Defined.


Lemma request_marker_rejection_silent_witness :
  request parse_failure_text object_to_string (reject marker_error)
    (plain_config "/users") []
  = (Throw marker_error, []).
Proof.
  apply (request_marker_rejection_silent parse_failure_text object_to_string
           (reject marker_error) (plain_config "/users") marker_error []);
    [reflexivity|reflexivity|left; reflexivity].
Defined.


Lemma request_rejection_reraised_witness :
  exists ns,
    request parse_failure_text object_to_string (reject (status_error 500))
      (plain_config "/users") []
    = (Throw (status_error 500), ([] ++ ns)%list)
    /\ forallb is_notification ns = true
    /\ (List.length ns <= 1)%nat.
Proof.
  apply (request_rejection_reraised parse_failure_text object_to_string
           (reject (status_error 500)) (plain_config "/users")
           (status_error 500) []); reflexivity.
Defined.

Lemma request_return_shapes_witness :
  exists r,
    serve (json_response success_body) (request_url (plain_config "/users"))
      (request_options (plain_config "/users")) = Return r
    /\ (success_body = success_envelope (_data r)
        \/ (success_body = _data r
            /\ Js.has "skipResponseInterceptor" success_body = true)
        \/ (success_body = _data r /\ Js.has "success" success_body = true
            /\ exists s, Js.get success_body "success" = Return s
                         /\ Js.truthy s = true)).
Proof.
  apply (request_return_shapes parse_failure_text object_to_string
           (serve (json_response success_body)) (plain_config "/users")
           success_body [] []); reflexivity.
Defined.

Lemma request_binary_never_raises_witness :
  exists ns,
    request parse_failure_text object_to_string (serve (blob_response json_blob))
      (plain_config "/export") []
    = (Return (success_envelope (VBlob json_blob)), ([] ++ ns)%list)
    /\ forallb is_notification ns = true
    /\ (List.length ns <= 1)%nat.
Proof.
  apply (request_binary_never_raises parse_failure_text object_to_string
           (serve (blob_response json_blob)) (plain_config "/export")
           (blob_response json_blob) []);
    [reflexivity|reflexivity|reflexivity|right; reflexivity].
Defined.

Lemma request_blob_silent_witness :
  request parse_failure_text object_to_string
    (serve (blob_response malformed_blob)) (plain_config "/export") []
  = (Return (success_envelope (VBlob malformed_blob)), []).
Proof.
  apply (request_blob_silent parse_failure_text object_to_string
           (serve (blob_response malformed_blob)) (plain_config "/export")
           (blob_response malformed_blob) malformed_blob []);
    [reflexivity|reflexivity|reflexivity|].
  left. eexists. reflexivity.
Defined.



Lemma request_bypass_wraps_any_body_witness :
  exists v,
    request parse_failure_text object_to_string
      (serve (json_response failure_body)) (download_config "/export" None) []
    = (Return v, [])
    /\ Js.get v "success" = Return (VBool true)
    /\ Js.get v "data" = Return (_data (json_response failure_body))
    /\ is_envelope v = true.
Proof.
  apply (request_bypass_wraps_any_body parse_failure_text object_to_string
           (serve (json_response failure_body)) (download_config "/export" None)
           (json_response failure_body) []); reflexivity.
Defined.

Lemma download_rejection_logged_witness :
  exists ns,
    download parse_failure_text object_to_string (reject network_error)
      "/export" None None []
    = (Throw network_error,
       ([] ++ ns ++ [ConsoleError MSG_DOWNLOAD_LOG network_error])%list)
    /\ forallb is_notification ns = true
    /\ (List.length ns <= 1)%nat
    /\ saves ([] ++ ns ++ [ConsoleError MSG_DOWNLOAD_LOG network_error])%list
       = saves [].
Proof.
  apply (download_rejection_logged parse_failure_text object_to_string
           (reject network_error) "/export" None None network_error []);
    reflexivity.
Defined.

Lemma download_resolves_on_answer_witness :
  exists ns,
    download parse_failure_text object_to_string
      (serve (blob_response json_blob)) "/export" None None []
    = (Return tt, ([] ++ ns)%list)
    /\ toasts ns = []
    /\ List.length (saves ns)
       = (if Js.instanceof_Blob (_data (blob_response json_blob))
          then 1 else 0)%nat
    /\ created ns = revoked ns.
Proof.
  apply (download_resolves_on_answer parse_failure_text object_to_string
           (serve (blob_response json_blob)) "/export" None None
           (blob_response json_blob) []); reflexivity.
Defined.

(** ** Properties of the headers *)

Lemma get_header_set_same (k v : string) (o : Headers) :
  get_header k (set_header k v o) = Some v.
Proof.
  induction o as [|[k' v'] o IH]; simpl.
  - now rewrite String.eqb_refl.
  - destruct (String.eqb k k') eqn:E; simpl.
    + now rewrite String.eqb_refl.
    + now rewrite E.
Qed.

Lemma get_header_set_other (k k' v : string) (o : Headers) :
  String.eqb k k' = false ->
  get_header k (set_header k' v o) = get_header k o.
Proof.
  intros Hk. induction o as [|[k2 v2] o IH]; simpl.
  - now rewrite Hk.
  - destruct (String.eqb k' k2) eqn:E; simpl.
    + apply String.eqb_eq in E. subst k2. now rewrite Hk.
    + now rewrite IH.
Qed.

Lemma get_header_app (k : string) (a b : Headers) :
  get_header k (a ++ b)%list
  = match get_header k a with Some v => Some v | None => get_header k b end.
Proof.
  induction a as [|[k' v'] a IH]; [reflexivity|]. simpl.
  now destruct (String.eqb k k').
Qed.

(** [{ ...o, ...h }] reads a name in [h] first, at its last binding. *)
Lemma get_header_spread (k : string) (o h : Headers) :
  get_header k (spread o h)
  = match get_header k (rev h) with
    | Some v => Some v
    | None => get_header k o
    end.
Proof.
  unfold spread. revert o. induction h as [|[k' v'] h IH]; intros o.
  - reflexivity.
  - simpl fold_left. rewrite IH. simpl rev. rewrite get_header_app.
    destruct (get_header k (rev h)); [reflexivity|]. simpl.
    destruct (String.eqb k k') eqn:E.
    + apply String.eqb_eq in E. subst k'. apply get_header_set_same.
    + now apply get_header_set_other.
Qed.

Lemma set_header_keys (k v k' : string) (o : Headers) :
  In k' (map fst (set_header k v o)) -> k' = k \/ In k' (map fst o).
Proof.
  induction o as [|[k2 v2] o IH]; simpl.
  - intros [H|[]]. now left.
  - destruct (String.eqb k k2) eqn:E; simpl.
    + apply String.eqb_eq in E. subst k2. tauto.
    + intros [H|H]; [tauto|]. destruct (IH H); tauto.
Qed.

Lemma set_header_unique (k v : string) (o : Headers) :
  NoDup (map fst o) -> NoDup (map fst (set_header k v o)).
Proof.
  induction o as [|[k2 v2] o IH]; simpl; intros H.
  - constructor; [intros []|constructor].
  - inversion H as [|x l Hn Hd]; subst.
    destruct (String.eqb k k2) eqn:E; simpl.
    + apply String.eqb_eq in E. subst k2. now constructor.
    + constructor; [|now apply IH].
      intros Hin. apply set_header_keys in Hin as [->|Hin]; [|contradiction].
      now rewrite String.eqb_refl in E.
Qed.

Lemma spread_unique (o h : Headers) :
  NoDup (map fst o) -> NoDup (map fst (spread o h)).
Proof.
  unfold spread. revert o. induction h as [|[k v] h IH]; intros o H.
  - exact H.
  - simpl. apply IH. now apply set_header_unique.
Qed.

(** X15: the headers that [createHeaders] builds give every name of the
    caller's headers the last value it has there, give [Content-Type] the
    value [application/json] when the caller's headers lack it, and hold no
    other name: as both credential sources return [null], neither
    [Authorization] nor [X-Tenant-Id] is ever added. *)
Theorem createHeaders_lookup (config : RequestConfig) (k : string) :
  get_header k (createHeaders config)
  = match get_header k (rev (from_option [] (headers config))) with
    | Some v => Some v
    | None => if String.eqb k "Content-Type" then Some "application/json" else None
    end.
Proof.
  unfold createHeaders. simpl. rewrite get_header_spread. reflexivity.
Qed.

(** The headers that [createHeaders] builds are an object: no name occurs
    twice, also when the caller's list binds a name more than once. *)
Lemma createHeaders_unique (config : RequestConfig) :
  NoDup (map fst (createHeaders config)).
Proof.
  unfold createHeaders. simpl. apply spread_unique.
  simpl. constructor; [intros []|constructor].
Qed.

(** ** The call that reaches the transport *)








Lemma request_quiet_witness :
  exists ns,
    snd (request parse_failure_text object_to_string (reject (status_error 500))
           (quiet_config "/users") [])
    = ([] ++ ns)%list
    /\ forallb is_notification ns = true
    /\ (List.length ns <= 1)%nat
    /\ (forall e,
          reject (status_error 500) (request_url (quiet_config "/users"))
            (request_options (quiet_config "/users")) = Throw e ->
          ns = []).
Proof.
  apply (request_quiet parse_failure_text object_to_string
           (reject (status_error 500)) (quiet_config "/users") []).
  reflexivity.
Defined.

Lemma request_wraps_plain_bodies_witness :
  request parse_failure_text object_to_string (serve no_content_response)
    (plain_config "/users/7") []
  = (Return (success_envelope VUndefined), [])
  /\ Js.get (success_envelope VUndefined) "data" = Return VUndefined.
Proof.
  apply (request_wraps_plain_bodies parse_failure_text object_to_string
           (serve no_content_response) (plain_config "/users/7")
           no_content_response []); first [reflexivity | exact I].
Defined.


(** ** Properties of the URL resolver *)

Section ResolverFacts.

Import Str.

Lemma is_slash_true (c : ascii) : is_slash c = true -> c = "/"%char.
Proof. unfold is_slash. intros H. now apply Ascii.eqb_eq in H. Qed.

Lemma startsWith_cons (c : ascii) (s : string) :
  startsWith (String c s) "/" = is_slash c.
Proof. unfold is_slash. simpl. now destruct s; rewrite andb_true_r. Qed.

Lemma lstrip_no_leading_slash (s : string) :
  startsWith (lstrip_slashes s) "/" = false.
Proof.
  induction s as [|c s IH]; [reflexivity|].
  simpl. destruct (is_slash c) eqn:E; [exact IH|].
  now rewrite startsWith_cons.
Qed.

Lemma endsWith_cons (c : ascii) (s suf : string) :
  endsWith (String c s) suf = String.eqb (String c s) suf || endsWith s suf.
Proof. reflexivity. Qed.

Lemma rstrip_empty_inv (c : ascii) (s : string) :
  rstrip_slashes (String c s) = EmptyString ->
  is_slash c = true /\ rstrip_slashes s = EmptyString.
Proof.
  simpl. destruct (rstrip_slashes s); [|discriminate].
  destruct (is_slash c); [auto|discriminate].
Qed.

Lemma rstrip_no_trailing_slash (s : string) :
  endsWith (rstrip_slashes s) "/" = false.
Proof.
  induction s as [|c s IH]; [reflexivity|].
  simpl. destruct (rstrip_slashes s) as [|d r] eqn:E.
  - destruct (is_slash c) eqn:Ec; [reflexivity|].
    rewrite endsWith_cons. simpl.
    unfold is_slash in Ec. rewrite Ec. reflexivity.
  - rewrite endsWith_cons, IH. simpl.
    destruct (Ascii.eqb c "/"%char); reflexivity.
Qed.

(** A string of two or more slashes ends with two slashes. *)
Lemma all_slashes_end (s : string) (c d : ascii) :
  rstrip_slashes (String c (String d s)) = EmptyString ->
  endsWith (String c (String d s)) "//" = true.
Proof.
  revert c d. induction s as [|e s IH]; intros c d H.
  - apply rstrip_empty_inv in H as [Hc H].
    apply rstrip_empty_inv in H as [Hd _].
    apply is_slash_true in Hc, Hd. subst. reflexivity.
  - apply rstrip_empty_inv in H as [_ H].
    rewrite endsWith_cons, (IH d e H). apply orb_true_r.
Qed.

Lemma strip_one_is_strip_all (s : string) :
  endsWith s "//" = false -> strip_trailing_slash s = rstrip_slashes s.
Proof.
  induction s as [|c s IH]; [reflexivity|].
  intros H. rewrite endsWith_cons in H. apply orb_false_iff in H as [Hc Hs].
  destruct s as [|d s]; [simpl; now destruct (is_slash c)|].
  specialize (IH Hs).
  change (strip_trailing_slash (String c (String d s)))
    with (String c (strip_trailing_slash (String d s))).
  rewrite IH.
  change (rstrip_slashes (String c (String d s)))
    with (match rstrip_slashes (String d s) with
          | EmptyString => if is_slash c then EmptyString else String c EmptyString
          | r => String c r
          end).
  destruct (rstrip_slashes (String d s)) as [|x r] eqn:E; [|reflexivity].
  destruct s as [|e s].
  - apply rstrip_empty_inv in E as [Hd _]. apply is_slash_true in Hd. subst d.
    destruct (is_slash c) eqn:Ec; [|reflexivity].
    apply is_slash_true in Ec. subst c. discriminate Hc.
  - apply all_slashes_end in E. congruence.
Qed.

Lemma ensure_leading_slash (p : string) :
  startsWith p "//" = false ->
  (if startsWith p "/" then p else "/" ++ p) = "/" ++ lstrip_slashes p.
Proof.
  destruct p as [|c p]; [reflexivity|].
  rewrite startsWith_cons. intros H.
  destruct (is_slash c) eqn:Ec.
  - apply is_slash_true in Ec. subst c.
    destruct p as [|d p]; [reflexivity|].
    simpl. destruct (is_slash d) eqn:Ed; [|reflexivity].
    apply is_slash_true in Ed. subst d.
    unfold startsWith in H. simpl in H. destruct p; discriminate H.
  - simpl. now rewrite Ec.
Qed.

(** C6: a path that begins with [http://] or [https://] is returned
    unchanged, whatever the configured base. *)
Theorem getApiUrl_absolute_unchanged (cfg : ApiConfig) (path : string) :
  startsWith path "http://" = true \/ startsWith path "https://" = true ->
  getApiUrl cfg path = path.
Proof.
  intros H. unfold getApiUrl.
  destruct H as [H|H]; rewrite H; [reflexivity|].
  now rewrite orb_true_r.
Qed.

(** C5, as amended: for a path without a scheme prefix that does not begin
    with two slashes, and a base that does not end with two slashes, the
    resolved URL is the base without its trailing slash, one slash, and the
    path without its leading slash; the part before the joining slash does
    not end with a slash and the part after it does not begin with one. *)
Theorem getApiUrl_single_slash (cfg : ApiConfig) (path : string) :
  startsWith path "http://" = false ->
  startsWith path "https://" = false ->
  startsWith path "//" = false ->
  endsWith (baseURL cfg) "//" = false ->
  getApiUrl cfg path = spec_join (baseURL cfg) path
  /\ endsWith (rstrip_slashes (baseURL cfg)) "/" = false
  /\ startsWith (lstrip_slashes path) "/" = false.
Proof.
  intros H1 H2 Hp Hb. unfold getApiUrl, spec_join.
  rewrite H1, H2. simpl orb. cbv iota.
  rewrite (strip_one_is_strip_all _ Hb), (ensure_leading_slash _ Hp).
  auto using rstrip_no_trailing_slash, lstrip_no_leading_slash.
Qed.

Lemma append_empty_r (s : string) : s ++ "" = s.
Proof. induction s as [|c s IH]; [reflexivity|]. simpl. now rewrite IH. Qed.

Lemma append_assoc (a b c : string) : (a ++ b) ++ c = a ++ (b ++ c).
Proof. induction a as [|x a IH]; [reflexivity|]. simpl. now rewrite IH. Qed.

Lemma strip_cases (s : string) :
  strip_trailing_slash s = s \/ s = strip_trailing_slash s ++ "/".
Proof.
  induction s as [|c s IH]; [now left|].
  destruct s as [|d s].
  - simpl. destruct (is_slash c) eqn:E; [|now left].
    apply is_slash_true in E. subst c. now right.
  - change (strip_trailing_slash (String c (String d s)))
      with (String c (strip_trailing_slash (String d s))).
    destruct IH as [IH|IH].
    + left. now rewrite IH.
    + right. cbn [append]. f_equal. exact IH.
Qed.

Lemma startsWith_slash_inv (p : string) :
  startsWith p "/" = true -> exists q, p = String "/" q.
Proof.
  destruct p as [|c p]; [discriminate|].
  rewrite startsWith_cons. intros H. apply is_slash_true in H. subst c.
  now exists p.
Qed.

Lemma startsWith_inv (s p : string) :
  startsWith s p = true -> exists r, s = p ++ r.
Proof.
  revert s. induction p as [|c p IH]; intros s H.
  - now exists s.
  - destruct s as [|d s]; [discriminate H|]. simpl in H.
    apply andb_prop in H as [Hc H]. apply Ascii.eqb_eq in Hc. subst d.
    destruct (IH _ H) as [r ->]. now exists r.
Qed.

Lemma startsWith_app (p r : string) : startsWith (p ++ r) p = true.
Proof.
  induction p as [|c p IH]; [now destruct r|].
  simpl. now rewrite Ascii.eqb_refl, IH.
Qed.

Lemma strip_app (p r : string) :
  r <> EmptyString ->
  strip_trailing_slash (p ++ r) = p ++ strip_trailing_slash r.
Proof.
  intros Hr. induction p as [|c p IH]; [reflexivity|].
  simpl append. destruct (p ++ r) as [|d s] eqn:E.
  - destruct p; [simpl in E; contradiction|discriminate E].
  - change (strip_trailing_slash (String c (String d s)))
      with (String c (strip_trailing_slash (String d s))).
    now rewrite IH.
Qed.

Lemma strip_snoc_slash (p : string) : strip_trailing_slash (p ++ "/") = p.
Proof.
  induction p as [|c p IH]; [reflexivity|].
  simpl append. destruct (p ++ "/") as [|d s] eqn:E.
  - destruct p; discriminate E.
  - change (strip_trailing_slash (String c (String d s)))
      with (String c (strip_trailing_slash (String d s))).
    now rewrite IH.
Qed.

(** A base that begins with a scheme prefix still does so once its trailing
    slash is stripped and a path that begins with a slash is appended. *)
Lemma scheme_kept (p0 base q : string) :
  startsWith base (p0 ++ "/") = true ->
  startsWith (strip_trailing_slash base ++ String "/" q) (p0 ++ "/") = true.
Proof.
  intros H. apply startsWith_inv in H as [r ->].
  destruct r as [|c r].
  - rewrite append_empty_r, strip_snoc_slash.
    change (String "/" q) with ("/" ++ q). rewrite <- append_assoc.
    apply startsWith_app.
  - rewrite strip_app by discriminate. rewrite append_assoc.
    apply startsWith_app.
Qed.

Lemma endsWith_inv (s suf : string) :
  endsWith s suf = true -> exists b, s = b ++ suf.
Proof.
  induction s as [|c s IH]; intros H.
  - destruct suf; [now exists EmptyString|discriminate H].
  - rewrite endsWith_cons in H. apply orb_prop in H as [H|H].
    + apply String.eqb_eq in H. subst suf. now exists EmptyString.
    + destruct (IH H) as [b ->]. now exists (String c b).
Qed.

(** X20: for every base and every path without a scheme prefix the join is
    never missing its slash: the resolved URL is a string [b], one slash and
    a string [p], where [b] is the base or the base without its last
    character, a slash, and [p] is the path or the path without its first
    character, a slash. *)
Theorem getApiUrl_never_missing_slash (cfg : ApiConfig) (path : string) :
  startsWith path "http://" = false ->
  startsWith path "https://" = false ->
  exists b p,
    getApiUrl cfg path = b ++ "/" ++ p
    /\ (baseURL cfg = b \/ baseURL cfg = b ++ "/")
    /\ (path = p \/ path = "/" ++ p).
Proof.
  intros H1 H2. unfold getApiUrl. rewrite H1, H2. simpl orb. cbv iota.
  exists (strip_trailing_slash (baseURL cfg)).
  destruct (startsWith path "/") eqn:Hs.
  - apply startsWith_slash_inv in Hs as [q ->]. exists q.
    split; [reflexivity|]. split; [|now right].
    destruct (strip_cases (baseURL cfg)) as [E|E]; [left|right]; congruence.
  - exists path. split; [reflexivity|]. split; [|now left].
    destruct (strip_cases (baseURL cfg)) as [E|E]; [left|right]; congruence.
Qed.

(** X21: when the base begins with [http://] or [https://], a resolved URL
    is a fixed point of the resolver: resolving it again returns it
    unchanged. *)
Theorem getApiUrl_idempotent (cfg : ApiConfig) (path : string) :
  startsWith (baseURL cfg) "http://" = true
  \/ startsWith (baseURL cfg) "https://" = true ->
  getApiUrl cfg (getApiUrl cfg path) = getApiUrl cfg path.
Proof.
  intros Hb.
  assert (Hfix : forall u,
             startsWith u "http://" || startsWith u "https://" = true ->
             getApiUrl cfg u = u).
  { intros u Hu. unfold getApiUrl. now rewrite Hu. }
  destruct (startsWith path "http://" || startsWith path "https://") eqn:Hp.
  - rewrite (Hfix _ Hp). now apply Hfix.
  - apply Hfix. unfold getApiUrl. rewrite Hp.
    assert (Hq : exists q,
               (if startsWith path "/" then path else "/" ++ path) = String "/" q).
    { destruct (startsWith path "/") eqn:Hs.
      - now apply startsWith_slash_inv.
      - now exists path. }
    destruct Hq as [q ->]. apply orb_true_iff.
    destruct Hb as [Hb|Hb]; [left|right].
    + exact (scheme_kept "http:/" _ q Hb).
    + exact (scheme_kept "https:/" _ q Hb).
Qed.

(** X22: a base that ends with two slashes keeps one of them, so that for
    every path without a scheme prefix the resolved URL has two slashes at
    the join: only one trailing slash of the base is ever stripped. *)
Theorem getApiUrl_keeps_second_slash (cfg : ApiConfig) (path : string) :
  startsWith path "http://" = false ->
  startsWith path "https://" = false ->
  endsWith (baseURL cfg) "//" = true ->
  exists b p,
    baseURL cfg = b ++ "//"
    /\ (path = p \/ path = "/" ++ p)
    /\ getApiUrl cfg path = b ++ "//" ++ p.
Proof.
  intros H1 H2 He. apply endsWith_inv in He as [b Hb]. exists b.
  unfold getApiUrl. rewrite H1, H2, Hb. simpl orb. cbv iota.
  rewrite strip_app by discriminate.
  change (strip_trailing_slash "//") with "/".
  destruct (startsWith path "/") eqn:Hs.
  - apply startsWith_slash_inv in Hs as [q ->]. exists q.
    split; [reflexivity|]. split; [now right|].
    now rewrite append_assoc.
  - exists path. split; [reflexivity|]. split; [now left|].
    now rewrite append_assoc.
Qed.

End ResolverFacts.

Lemma getApiUrl_absolute_unchanged_witness :
  getApiUrl API_CONFIG "https://example.com/a" = "https://example.com/a".
Proof.
  apply (getApiUrl_absolute_unchanged API_CONFIG "https://example.com/a").
  right. reflexivity.
Defined.

Lemma getApiUrl_single_slash_witness :
  getApiUrl {| baseURL := "http://host/"; timeout := 1 |} "users"
  = "http://host/users".
Proof.
  apply (getApiUrl_single_slash {| baseURL := "http://host/"; timeout := 1 |} "users");
    reflexivity.
Defined.

(** C5, as stated, fails: a path that begins with two slashes keeps both
    after the configured base. *)
Lemma getApiUrl_double_slash :
  getApiUrl API_CONFIG "//users" = "http://192.168.57.9:8000//users"
  /\ getApiUrl API_CONFIG "//users" <> spec_join (baseURL API_CONFIG) "//users".
Proof. split; [reflexivity|discriminate]. Qed.

(** A base with two trailing slashes keeps one of them, so the join has two
    slashes as well. *)
Example getApiUrl_base_two_slashes :
  getApiUrl {| baseURL := "http://host//"; timeout := 1 |} "/users"
  = "http://host//users".
Proof. reflexivity. Qed.

Lemma getApiUrl_never_missing_slash_witness :
  exists b p,
    getApiUrl API_CONFIG "users" = b ++ "/" ++ p
    /\ (baseURL API_CONFIG = b \/ baseURL API_CONFIG = b ++ "/")
    /\ ("users" = p \/ "users" = "/" ++ p).
Proof.
  apply (getApiUrl_never_missing_slash API_CONFIG "users"); reflexivity.
Defined.

Lemma getApiUrl_idempotent_witness :
  getApiUrl API_CONFIG (getApiUrl API_CONFIG "/users")
  = getApiUrl API_CONFIG "/users".
Proof.
  apply (getApiUrl_idempotent API_CONFIG "/users"). left. reflexivity.
Defined.

Lemma getApiUrl_keeps_second_slash_witness :
  exists b p,
    baseURL {| baseURL := "http://host//"; timeout := 1 |} = b ++ "//"
    /\ ("/users" = p \/ "/users" = "/" ++ p)
    /\ getApiUrl {| baseURL := "http://host//"; timeout := 1 |} "/users"
       = b ++ "//" ++ p.
Proof.
  apply (getApiUrl_keeps_second_slash
           {| baseURL := "http://host//"; timeout := 1 |} "/users");
    reflexivity.
Defined.
